(** * Workspaces service: registry, lifecycle handlers and OAuth gateway

    A shallow embedding of the JavaScript sources

    - [database.js]    (the SQLite-backed workspace registry),
    - [app/server.js]  (the workspaces HTTP server), and
    - [auth-common.js] (the shared OAuth route handlers),

    followed by the properties of the workspace lifecycle and of the OAuth
    state check that hold of that code.

    Conventions of the embedding.

    - A nullable TEXT column, and a JavaScript value that is either a string
      or [null]/[undefined], is an [option string].
    - The [workspaces] table is a finite map from the INTEGER PRIMARY KEY
      [id] to the remaining columns, together with the AUTOINCREMENT
      counter SQLite keeps in [sqlite_sequence].
    - [CURRENT_TIMESTAMP] is an explicit argument [now] of every statement
      that mentions it.
    - better-sqlite3 is synchronous: every registry function is one atomic
      step on the table.  An [async] handler is split at its [await] into
      the part before and the part after the Container Runtime call;
      concurrent requests interleave only at that point.
    - What the external collaborators do (Container Runtime, session store,
      identity provider) is an argument of the handler that calls them, and
      the calls a handler makes are returned as a trace.
    - The driver enforces the foreign key from [workspaces.user_id] to
      [users.id]; a statement that writes [user_id] takes the users table
      it is checked against, and a statement that throws returns the
      error and writes nothing. *)

From stdpp Require Import base gmap strings list fin_maps sorting.

Local Open Scope string_scope.
Local Open Scope Z_scope.

(** ** SQLite as the driver presents it *)

Module Sqlite.

(** The [SqliteError]s the statements of [database.js] can throw. *)
Inductive SqliteError :=
| SQLITE_FULL                    (* no rowid is left for the insert *)
| SQLITE_CONSTRAINT_UNIQUE       (* UNIQUE constraint failed *)
| SQLITE_CONSTRAINT_FOREIGNKEY.  (* FOREIGN KEY constraint failed *)

(** The largest rowid, 2^63 - 1. *)
Definition MAX_ROWID : Z := 9223372036854775807.

End Sqlite.

(** ** database.js: the users table *)

Module Users.
Import Sqlite.

(** One row of [users]; the TEXT PRIMARY KEY [id] is the key of the table. *)
Record user_row := UserRow {
  u_username : string;
  u_display_name : option string;
  u_email : option string;
  u_avatar : option string;
  u_github_access_token : option string;
  u_created_at : Z;
  u_updated_at : Z
}.

#[export] Instance user_row_eq_dec : EqDecision user_row.
Proof. solve_decision. Defined.

(** The [user] object handed to [upsertUser]; every optional field is a
    string or [null]. *)
Record user_object := UserObject {
  id : string;
  username : string;
  displayName : option string;
  email : option string;
  avatar : option string;
  githubAccessToken : option string
}.

(** [username TEXT UNIQUE]: does a row with another id hold this name? *)
Definition username_taken (t : gmap string user_row) (i n : string) : bool :=
  bool_decide (map_Exists (λ k r, k ≠ i ∧ u_username r = n) t).

(** [INSERT INTO users (...) VALUES (...) ON CONFLICT(id) DO UPDATE SET ...]:
    a new id is inserted, an existing id has every column but [created_at]
    overwritten. *)
Definition upsertUser (t : gmap string user_row) (u : user_object) (now : Z)
  : SqliteError + gmap string user_row :=
  if username_taken t (id u) (username u) then inl SQLITE_CONSTRAINT_UNIQUE
  else
    inr (<[id u := {| u_username := username u;
                      u_display_name := displayName u;
                      u_email := email u;
                      u_avatar := avatar u;
                      u_github_access_token := githubAccessToken u;
                      u_created_at := match t !! id u with
                                      | Some old => u_created_at old
                                      | None => now
                                      end;
                      u_updated_at := now |}]> t).

(** [SELECT * FROM users WHERE id = ?] *)
Definition getUserById (t : gmap string user_row) (i : string)
  : option user_row :=
  t !! i.

(** [upsertUser] calls in sequence; a call that throws changes nothing. *)
Definition upsert_all (calls : list (user_object * Z))
    (t : gmap string user_row) : gmap string user_row :=
  foldl (λ t c, match upsertUser t c.1 c.2 with
                | inl _ => t
                | inr t' => t'
                end) t calls.

Definition usernames_unique (t : gmap string user_row) : Prop :=
  ∀ i j r1 r2, t !! i = Some r1 → t !! j = Some r2 →
               u_username r1 = u_username r2 → i = j.

End Users.

(** ** database.js: the workspaces table *)

Module Database.
Export Sqlite.

(** One row of [workspaces]; the [id] column is the key of the table.
    A route parameter [:id] reaches the statements as the integer it
    denotes.  The driver enforces foreign keys, so a statement that
    writes [user_id] takes the [users] table it is checked against. *)
Record workspace := Workspace {
  user_id : option string;
  name : string;
  repo_url : string;
  container_id : option string;
  status : option string;
  devcontainer_build_status : option string;
  created_at : Z;
  updated_at : Z
}.

#[export] Instance workspace_eq_dec : EqDecision workspace.
Proof. solve_decision. Defined.

Record database := Db {
  workspaces : gmap Z workspace;
  sqlite_sequence : Z
}.

#[export] Instance database_eq_dec : EqDecision database.
Proof. solve_decision. Defined.

(** The table right after [initialize] on a fresh file. *)
Definition initialize : database := Db ∅ 0.

(** The info object of [stmt.run] for UPDATE and DELETE: only [changes]
    is meaningful there. *)
Definition changes := nat.

(** The argument object of [createWorkspace]. *)
Record new_workspace := NewWorkspace {
  userId : option string;
  new_name : string;
  repoUrl : string;
  containerId : option string;
  new_status : option string
}.

(** [UNIQUE(name)]: is there a row with this name? *)
Definition name_taken (n : string) (t : gmap Z workspace) : bool :=
  bool_decide (map_Exists (λ _ w, name w = n) t).

(** Largest rowid in the table (0 when empty). *)
Definition max_rowid (t : gmap Z workspace) : Z :=
  map_fold (λ k _ acc, Z.max k acc) 0 t.

(** [INTEGER PRIMARY KEY AUTOINCREMENT]: one more than the largest rowid
    ever used. *)
Definition next_rowid (d : database) : Z :=
  Z.max (sqlite_sequence d) (max_rowid (workspaces d)) + 1.

(** [FOREIGN KEY (user_id) REFERENCES users(id)]: the value written is
    NULL or the id of a row of [users]. *)
Definition references_user (users : gmap string Users.user_row)
    (u : option string) : bool :=
  match u with
  | None => true
  | Some i => bool_decide (is_Some (users !! i))
  end.

(** [INSERT INTO workspaces (user_id, name, repo_url, container_id, status)
    VALUES (?, ?, ?, ?, ?)]; returns [result.lastInsertRowid].  The rowid
    is taken first, the unique index is checked when the row is written,
    the foreign key when the statement ends; a statement that throws
    writes nothing. *)
Definition createWorkspace (users : gmap string Users.user_row)
    (d : database) (w : new_workspace) (now : Z)
  : SqliteError + (Z * database) :=
  if MAX_ROWID <? next_rowid d then inl SQLITE_FULL
  else if name_taken (new_name w) (workspaces d)
  then inl SQLITE_CONSTRAINT_UNIQUE
  else if negb (references_user users (userId w))
  then inl SQLITE_CONSTRAINT_FOREIGNKEY
  else
    let i := next_rowid d in
    let row := {| user_id := userId w;
                  name := new_name w;
                  repo_url := repoUrl w;
                  container_id := containerId w;
                  status := new_status w;
                  devcontainer_build_status := None;
                  created_at := now;
                  updated_at := now |} in
    inr (i, Db (<[i := row]> (workspaces d)) i).

(** [SELECT * FROM workspaces WHERE id = ?] *)
Definition getWorkspace (d : database) (i : Z) : option workspace :=
  workspaces d !! i.

(** [UPDATE workspaces SET ... WHERE id = ? AND cond]: the row with key
    [i] is rewritten by [set] when it exists and satisfies [cond]. *)
Definition update_where (d : database) (i : Z)
    (cond : workspace → bool) (set : workspace → workspace)
  : database * changes :=
  match workspaces d !! i with
  | Some w =>
      if cond w
      then (Db (<[i := set w]> (workspaces d)) (sqlite_sequence d), 1%nat)
      else (d, 0%nat)
  | None => (d, 0%nat)
  end.

Definition set_status (s : string) (now : Z) (w : workspace) : workspace :=
  {| user_id := user_id w; name := name w; repo_url := repo_url w;
     container_id := container_id w; status := Some s;
     devcontainer_build_status := devcontainer_build_status w;
     created_at := created_at w; updated_at := now |}.

Definition set_container (c : option string) (s : string) (now : Z)
    (w : workspace) : workspace :=
  {| user_id := user_id w; name := name w; repo_url := repo_url w;
     container_id := c; status := Some s;
     devcontainer_build_status := devcontainer_build_status w;
     created_at := created_at w; updated_at := now |}.

Definition set_owner (u : option string) (now : Z) (w : workspace)
  : workspace :=
  {| user_id := u; name := name w; repo_url := repo_url w;
     container_id := container_id w; status := status w;
     devcontainer_build_status := devcontainer_build_status w;
     created_at := created_at w; updated_at := now |}.

(** SQL [status = ?]: a NULL status equals nothing. *)
Definition status_is (s : string) (w : workspace) : bool :=
  bool_decide (status w = Some s).

(** [updateWorkspaceStatus(id, status, expectedStatus = null)] *)
Definition updateWorkspaceStatus (d : database) (i : Z) (s : string)
    (expectedStatus : option string) (now : Z) : database * changes :=
  match expectedStatus with
  | Some e => update_where d i (status_is e) (set_status s now)
  | None => update_where d i (λ _, true) (set_status s now)
  end.

(** [updateWorkspaceContainer(id, containerId, status, expectedStatus = null)] *)
Definition updateWorkspaceContainer (d : database) (i : Z)
    (c : option string) (s : string) (expectedStatus : option string)
    (now : Z) : database * changes :=
  match expectedStatus with
  | Some e => update_where d i (status_is e) (set_container c s now)
  | None => update_where d i (λ _, true) (set_container c s now)
  end.

(** The foreign key of an UPDATE that sets [user_id]: it is checked for
    the row the statement changed, and a violation undoes the statement. *)
Definition check_owner (users : gmap string Users.user_row)
    (u : option string) (r : database * changes)
  : SqliteError + (database * changes) :=
  if bool_decide (r.2 = 0%nat) || references_user users u then inr r
  else inl SQLITE_CONSTRAINT_FOREIGNKEY.

(** [updateWorkspaceOwner(id, userId, expectedStatus)] *)
Definition updateWorkspaceOwner (users : gmap string Users.user_row)
    (d : database) (i : Z) (u : option string) (expectedStatus : string)
    (now : Z) : SqliteError + (database * changes) :=
  check_owner users u
    (update_where d i (status_is expectedStatus) (set_owner u now)).

(** [releaseWorkspace(id, expectedUserId, expectedStatus)]:
    [SET user_id = NULL ... WHERE id = ? AND user_id = ? AND status = ?] *)
Definition releaseWorkspace (d : database) (i : Z)
    (expectedUserId expectedStatus : string) (now : Z)
  : database * changes :=
  update_where d i
    (λ w, bool_decide (user_id w = Some expectedUserId)
          && status_is expectedStatus w)
    (set_owner None now).

(** [acquireWorkspace(id, userId, expectedStatus)]:
    [SET user_id = ? ... WHERE id = ? AND user_id IS NULL AND status = ?] *)
Definition acquireWorkspace (users : gmap string Users.user_row)
    (d : database) (i : Z) (u expectedStatus : string) (now : Z)
  : SqliteError + (database * changes) :=
  check_owner users (Some u)
    (update_where d i
       (λ w, bool_decide (user_id w = None) && status_is expectedStatus w)
       (set_owner (Some u) now)).

(** [DELETE FROM workspaces WHERE id = ?] *)
Definition deleteWorkspace (d : database) (i : Z) : database * changes :=
  match workspaces d !! i with
  | Some _ => (Db (delete i (workspaces d)) (sqlite_sequence d), 1%nat)
  | None => (d, 0%nat)
  end.

End Database.

(** ** express, express-session and passport: the values the handlers see *)

Module Express.

(** [req.user]: the authenticated user, a row of [users]. *)
Record user := User {
  id : string;
  username : string
}.

#[export] Instance user_eq_dec : EqDecision user.
Proof. solve_decision. Defined.

(** [req.session].  [passport_user] is what [req.logIn] stores; a request
    [isAuthenticated()] when it is present. *)
Record session := Session {
  oauthState : option string;
  returnTo : option string;
  passport_user : option user
}.

#[export] Instance session_eq_dec : EqDecision session.
Proof. solve_decision. Defined.

(** Where [res.redirect] sends the browser. *)
Inductive location :=
| Path (p : string)
| FailureWithError (message : string)
    (* `${failureRedirect}?error=` + encodeURIComponent(message) *)
| ProviderAuthorize (state : string) (scope : list string).
    (* the identity provider's authorization URL *)

Inductive json :=
| JsonError (error : string)                       (* { error } *)
| JsonUnauthorized                                 (* { error, message, redirect } *)
| JsonSuccess                                      (* { success: true } *)
| JsonRow (i : Z) (w : Database.workspace)         (* a row of workspaces *)
| JsonContainer (containerId : string).            (* the Runtime's workspace object *)

Inductive response :=
| Json (code : Z) (body : json)       (* res.status(code).json(body) *)
| Send (code : Z) (text : string)     (* res.status(code).send(text) *)
| Redirect (to : location)            (* res.redirect(to) *)
| NextError (message : string).       (* next(err): Express answers 500 *)

Definition http_status (r : response) : Z :=
  match r with
  | Json c _ => c
  | Send c _ => c
  | Redirect _ => 302
  | NextError _ => 500
  end.

(** The result of awaiting a promise. *)
Inductive settled (A : Type) :=
| Resolved (a : A)
| Rejected (message : string).       (* error.message *)
Arguments Resolved {A} a.
Arguments Rejected {A} message.

(** What the provider round trip of [passport.authenticate] ends in:
    [done(err)], [done(null, false, info)] or [done(null, user)]. *)
Inductive authenticated :=
| AuthError (message : string)
| AuthFail (info_message : option string)
| AuthSuccess (u : user).

(** The calls a handler makes on the session store and on passport. *)
Inductive auth_call :=
| SessionSave (s : session)           (* req.session.save, with its content *)
| PassportAuthenticate                (* passport.authenticate('github', ...) *)
| LogIn (u : user).                   (* req.logIn(user, ...) *)

(** JavaScript truthiness of a string-or-undefined value. *)
Definition truthy (v : option string) : bool :=
  match v with
  | Some s => negb (bool_decide (s = ""))
  | None => false
  end.

(** [a || b] on such values. *)
Definition or_else (a : option string) (b : string) : string :=
  match a with
  | Some s => if bool_decide (s = "") then b else s
  | None => b
  end.

(** A field of [req.body].  [express.json()] delivers any JSON value; for
    one that is not a string, what JavaScript and the database driver
    make of it comes with the value: [falsy] is [!v], [shown] is the
    string the regular expression tests it as, and [bound] is the text
    found in a TEXT column after the driver has bound the value, or the
    message of the error the driver throws when it cannot bind it. *)
Inductive field :=
| Undefined
| Text (s : string)
| NonText (is_falsy : bool) (as_string : string) (as_bound : string + string).

(** [!v] *)
Definition falsy (v : field) : bool :=
  match v with
  | Undefined => true
  | Text s => bool_decide (s = "")
  | NonText f _ _ => f
  end.

(** The string a regular expression tests [v] as. *)
Definition shown (v : field) : string :=
  match v with
  | Undefined => "undefined"
  | Text s => s
  | NonText _ sh _ => sh
  end.

(** What binding [v] to a parameter of a statement gives for a TEXT
    column: the stored text, or the message of the error thrown. *)
Definition bound (v : field) : string + string :=
  match v with
  | Undefined =>
      inl "SQLite3 can only bind numbers, strings, bigints, buffers, and null"
  | Text s => inr s
  | NonText _ _ b => b
  end.

(** What leaves the process at the end of a request. *)
Inductive wire_event :=
| Saved (s : session)        (* the session store now holds [s] *)
| Sent (r : response).       (* the response goes out *)

(** express-session wraps [res.end]: when the session is not what the
    store holds, it is saved first, and the response goes out after
    that.  The services configure no store, so the sessions live in the
    MemoryStore of the process, whose [set] cannot fail. *)
Definition end_response (stored current : session) (r : response)
  : list wire_event :=
  if bool_decide (current = stored) then [Sent r]
  else [Saved current; Sent r].

End Express.

(** ** app/server.js *)

Module Server.
Import Database Express.

(** Modelled from the spec: [workspace-manager.js] is the Container
    Runtime, an external collaborator that lies outside this development;
    section 4.4 gives its contract: [create] returns an opaque, non-null
    handle, and every call either completes or fails with an error.  The
    handlers therefore take the settled Runtime call as an argument and
    return the calls they made. *)
Inductive runtime_call :=
| createWorkspace_call (username : string) (name repoUrl : field)
                       (envVars : list (string * string))
| startWorkspace_call (containerId : option string)
| stopWorkspace_call (containerId : option string)
| deleteWorkspace_call (containerId : option string).

Definition unauthorized : response := Json 401 JsonUnauthorized.
Definition not_found : response := Json 404 (JsonError "Workspace not found").

Definition error_message (e : SqliteError) : string :=
  match e with
  | SQLITE_FULL => "database or disk is full"
  | SQLITE_CONSTRAINT_UNIQUE => "UNIQUE constraint failed: workspaces.name"
  | SQLITE_CONSTRAINT_FOREIGNKEY => "FOREIGN KEY constraint failed"
  end.

(** [/^[a-zA-Z0-9_-]+$/.test(name)] *)
Definition name_char (a : Ascii.ascii) : bool :=
  let n := Ascii.N_of_ascii a in
  ((97 <=? n) && (n <=? 122) || (65 <=? n) && (n <=? 90)
   || (48 <=? n) && (n <=? 57) || (n =? 95) || (n =? 45))%N.

Definition valid_name (s : string) : bool :=
  negb (bool_decide (s = "")) && forallb name_char (String.list_ascii_of_string s).

(** *** GET /api/workspaces/:id *)
Definition get_workspace_handler (d : database) (u : option user) (i : Z)
  : response :=
  match u with
  | None => unauthorized
  | Some usr =>
      match getWorkspace d i with
      | None => not_found
      | Some w =>
          if bool_decide (user_id w = Some (id usr))
          then Json 200 (JsonRow i w)
          else not_found
      end
  end.

(** The guard shared by the delete, start and stop handlers:
    [!workspace || workspace.user_id !== req.user.id]. *)
Definition owned_workspace (d : database) (u : option user) (i : Z)
  : response + workspace :=
  match u with
  | None => inl unauthorized
  | Some usr =>
      match getWorkspace d i with
      | None => inl not_found
      | Some w =>
          if bool_decide (user_id w = Some (id usr))
          then inr w
          else inl not_found
      end
  end.

(** *** POST /api/workspaces/:id/start *)

(** Up to [await workspaceManager.startWorkspace(workspace.container_id)]. *)
Definition start_before (d : database) (u : option user) (i : Z)
  : response + runtime_call :=
  match owned_workspace d u i with
  | inl r => inl r
  | inr w => inr (startWorkspace_call (container_id w))
  end.

(** From the settled Runtime call to the response. *)
Definition start_after (d : database) (i : Z) (rt : settled unit) (now : Z)
  : response * database :=
  match rt with
  | Resolved _ =>
      (Json 200 JsonSuccess, (updateWorkspaceStatus d i "running" None now).1)
  | Rejected message => (Json 500 (JsonError message), d)
  end.

Definition start_handler (d : database) (u : option user) (i : Z)
    (rt : settled unit) (now : Z)
  : response * database * list runtime_call :=
  match start_before d u i with
  | inl r => (r, d, [])
  | inr c => let '(r, d') := start_after d i rt now in (r, d', [c])
  end.

(** *** POST /api/workspaces/:id/stop *)

Definition stop_before (d : database) (u : option user) (i : Z)
  : response + runtime_call :=
  match owned_workspace d u i with
  | inl r => inl r
  | inr w => inr (stopWorkspace_call (container_id w))
  end.

Definition stop_after (d : database) (i : Z) (rt : settled unit) (now : Z)
  : response * database :=
  match rt with
  | Resolved _ =>
      (Json 200 JsonSuccess, (updateWorkspaceStatus d i "stopped" None now).1)
  | Rejected message => (Json 500 (JsonError message), d)
  end.

Definition stop_handler (d : database) (u : option user) (i : Z)
    (rt : settled unit) (now : Z)
  : response * database * list runtime_call :=
  match stop_before d u i with
  | inl r => (r, d, [])
  | inr c => let '(r, d') := stop_after d i rt now in (r, d', [c])
  end.

(** *** DELETE /api/workspaces/:id *)

Definition delete_handler (d : database) (u : option user) (i : Z)
    (rt : settled unit)
  : response * database * list runtime_call :=
  match owned_workspace d u i with
  | inl r => (r, d, [])
  | inr w =>
      match rt with
      | Resolved _ =>
          (Json 200 JsonSuccess, (deleteWorkspace d i).1,
           [deleteWorkspace_call (container_id w)])
      | Rejected message =>
          (Json 500 (JsonError message), d,
           [deleteWorkspace_call (container_id w)])
      end
  end.

(** *** POST /api/workspaces *)

(** [req.body]: the fields the handler reads. *)
Record create_body := CreateBody {
  body_name : field;
  body_repoUrl : field;
  body_envVars : option (list (string * string))
}.

(** Up to [await workspaceManager.createWorkspace(...)]: the validated
    request, from which the Runtime call is built. *)
Record create_request := CreateRequest {
  creator : user;
  req_name : field;
  req_repoUrl : field;
  req_envVars : list (string * string)
}.

Definition create_before (u : option user) (b : create_body)
  : response + create_request :=
  match u with
  | None => inl unauthorized
  | Some usr =>
      if falsy (body_name b) || falsy (body_repoUrl b)
      then inl (Json 400 (JsonError "Name and repository URL are required"))
      else
        if negb (valid_name (shown (body_name b)))
        then inl (Json 400 (JsonError
          "Invalid workspace name. Use only alphanumeric characters, hyphens, and underscores."))
        else inr {| creator := usr; req_name := body_name b;
                    req_repoUrl := body_repoUrl b;
                    req_envVars := default [] (body_envVars b) |}
  end.

Definition create_call (c : create_request) : runtime_call :=
  createWorkspace_call (username (creator c)) (req_name c) (req_repoUrl c)
    (req_envVars c).

(** [rt] is the settled [workspaceManager.createWorkspace] call; its value
    carries the [containerId] of the new container.  [users] is the users
    table at the time of the insert.  The driver binds the parameters
    before it runs the statement, the name before the repository. *)
Definition create_after (users : gmap string Users.user_row) (d : database)
    (c : create_request) (rt : settled string) (now : Z)
  : response * database :=
  match rt with
  | Rejected message => (Json 500 (JsonError message), d)
  | Resolved cid =>
      match bound (req_name c), bound (req_repoUrl c) with
      | inl message, _ => (Json 500 (JsonError message), d)
      | inr _, inl message => (Json 500 (JsonError message), d)
      | inr n, inr r =>
          match createWorkspace users d
                  {| userId := Some (id (creator c));
                     new_name := n;
                     repoUrl := r;
                     containerId := Some cid;
                     new_status := Some "running" |} now
          with
          | inl e => (Json 500 (JsonError (error_message e)), d)
          | inr (_, d') => (Json 200 (JsonContainer cid), d')
          end
      end
  end.

Definition create_handler (users : gmap string Users.user_row) (d : database)
    (u : option user) (b : create_body) (rt : settled string) (now : Z)
  : response * database * list runtime_call :=
  match create_before u b with
  | inl r => (r, d, [])
  | inr c =>
      let '(r, d') := create_after users d c rt now in (r, d', [create_call c])
  end.

(** *** GET /auth/github *)

(** [state] is [crypto.randomBytes(32).toString('hex')].  Nothing here
    calls [req.session.save]: the handler hands over to passport, which
    redirects to the provider. *)
Definition auth_github (state : string) (s : session)
  : response * session * list auth_call :=
  (Redirect (ProviderAuthorize state ["user:email"]),
   {| oauthState := Some state; returnTo := returnTo s;
      passport_user := passport_user s |},
   [PassportAuthenticate]).

(** The route as the browser sees it.  [s] is the session as the store
    holds it when the request arrives. *)
Definition auth_github_route (state : string) (s : session)
  : list wire_event :=
  let '(r, s', _) := auth_github state s in end_response s s' r.

(** *** GET /auth/github/callback *)

(** The first middleware of the route.  [None] is [next()]. *)
Definition callback_verify_state (query_state : option string) (s : session)
  : option response * session :=
  if negb (bool_decide (query_state = oauthState s))
  then (Some (Send 403 "Invalid state parameter. Please try logging in again."), s)
  else (None, {| oauthState := None; returnTo := returnTo s;
                 passport_user := passport_user s |}).

Section Callback.
(** [req.logIn]: passport's session manager, which serializes the user
    into the (possibly regenerated) session or fails. *)
Variable logIn : session → user → string + session.

(** [passport.authenticate('github', { failureRedirect: '/' })] followed
    by the final [res.redirect('/dashboard')]. *)
Definition callback_authenticate (s : session) (a : authenticated)
  : response * session * list auth_call :=
  match a with
  | AuthError message => (NextError message, s, [PassportAuthenticate])
  | AuthFail _ => (Redirect (Path "/"), s, [PassportAuthenticate])
  | AuthSuccess u =>
      match logIn s u with
      | inl message => (NextError message, s, [PassportAuthenticate; LogIn u])
      | inr s' => (Redirect (Path "/dashboard"), s',
                   [PassportAuthenticate; LogIn u])
      end
  end.

Definition auth_github_callback (query_state : option string) (s : session)
    (a : authenticated) : response * session * list auth_call :=
  match callback_verify_state query_state s with
  | (Some r, s') => (r, s', [])
  | (None, s') => callback_authenticate s' a
  end.
End Callback.

End Server.

(** ** auth-common.js *)

Module AuthCommon.
Import Express.

(** The options of [createOAuthRoutes]. *)
Record error_messages := ErrorMessages {
  authError : option string;
  authFailed : option string;
  loginError : option string
}.

Record options := Options {
  defaultReturnTo : option string;
  errorMessages : error_messages
}.

Definition successRedirect (o : options) : string :=
  or_else (defaultReturnTo o) "/dashboard".

(** *** initiateAuth *)

(** [state] is [crypto.randomBytes(32).toString('hex')]; [save_err] is the
    error [req.session.save] hands to its callback, if any. *)
Definition initiateAuth (state : string) (query_returnTo : option string)
    (s : session) (save_err : option string)
  : response * session * list auth_call :=
  let s1 := {| oauthState := Some state;
               returnTo := if truthy query_returnTo then query_returnTo
                           else returnTo s;
               passport_user := passport_user s |} in
  match save_err with
  | Some _ => (Send 500 "Session error", s1, [SessionSave s1])
  | None =>
      (Redirect (ProviderAuthorize state ["user:email"; "read:org"; "repo"]),
       s1, [SessionSave s1; PassportAuthenticate])
  end.

(** *** handleCallback *)

(** The first middleware.  The route dereferences [req.session] before it
    tests it, so a session object is always there when the test runs;
    what is left of [!req.session || !req.session.oauthState] is the
    second disjunct.  [None] is [next()]. *)
Definition verify_state (query_state : option string) (s : session)
  : option response * session :=
  if negb (truthy (oauthState s))
  then (Some (Send 403 "Session lost during authentication. Please try logging in again."), s)
  else if negb (bool_decide (query_state = oauthState s))
  then (Some (Send 403 "Invalid state parameter. Please try logging in again."), s)
  else (None, {| oauthState := None; returnTo := returnTo s;
                 passport_user := passport_user s |}).

Section Callback.
Variable o : options.
Variable logIn : session → user → string + session.

(** The second middleware: [passport.authenticate] with a custom
    callback.  [save_err] is the outcome of the final
    [req.session.save], which is logged and otherwise ignored. *)
Definition authenticate (s : session) (a : authenticated)
    (save_err : option string) : response * session * list auth_call :=
  match a with
  | AuthError _ =>
      (Redirect (FailureWithError
         (or_else (authError (errorMessages o)) "認証中にエラーが発生しました")),
       s, [PassportAuthenticate])
  | AuthFail info =>
      (Redirect (FailureWithError
         (if truthy info then default "" info
          else or_else (authFailed (errorMessages o)) "認証に失敗しました")),
       s, [PassportAuthenticate])
  | AuthSuccess u =>
      let target := or_else (returnTo s) (or_else (Some (successRedirect o)) "/") in
      match logIn s u with
      | inl _ =>
          (Redirect (FailureWithError
             (or_else (loginError (errorMessages o)) "ログイン処理に失敗しました")),
           s, [PassportAuthenticate; LogIn u])
      | inr s' =>
          (Redirect (Path target), s',
           [PassportAuthenticate; LogIn u; SessionSave s'])
      end
  end.

Definition handleCallback (query_state : option string) (s : session)
    (a : authenticated) (save_err : option string)
  : response * session * list auth_call :=
  match verify_state query_state s with
  | (Some r, s') => (r, s', [])
  | (None, s') => authenticate s' a save_err
  end.
End Callback.

End AuthCommon.

(** ** Sequences of requests *)

Module Lifecycle.
Import Database Express Server.

(** One request to the lifecycle endpoints, with everything the handler
    observes while serving it. *)
Inductive operation :=
| Create (users : gmap string Users.user_row) (u : option user)
         (b : create_body) (rt : settled string) (now : Z)
| Start (u : option user) (i : Z) (rt : settled unit) (now : Z)
| Stop (u : option user) (i : Z) (rt : settled unit) (now : Z)
| Delete (u : option user) (i : Z) (rt : settled unit).

Definition run_operation (d : database) (op : operation) : database :=
  match op with
  | Create users u b rt now => (create_handler users d u b rt now).1.2
  | Start u i rt now => (start_handler d u i rt now).1.2
  | Stop u i rt now => (stop_handler d u i rt now).1.2
  | Delete u i rt => (delete_handler d u i rt).1.2
  end.

Definition run (ops : list operation) (d : database) : database :=
  foldl run_operation d ops.

(** Several [acquireWorkspace(id, userId, expectedStatus)] calls on the
    same workspace, in the order the database serves them; each call is a
    user id and the time of the call.  Returns what each call came to:
    the error thrown, or the [changes] reported. *)
Fixpoint acquire_all (users : gmap string Users.user_row) (d : database)
    (i : Z) (expectedStatus : string) (calls : list (string * Z))
  : database * list (SqliteError + changes) :=
  match calls with
  | [] => (d, [])
  | (u, now) :: rest =>
      match acquireWorkspace users d i u expectedStatus now with
      | inl e =>
          let '(d2, rs) := acquire_all users d i expectedStatus rest in
          (d2, inl e :: rs)
      | inr (d1, n) =>
          let '(d2, rs) := acquire_all users d1 i expectedStatus rest in
          (d2, inr n :: rs)
      end
  end.

(** The data-model invariant as the specification words it. *)
Definition live_status (s : option string) : Prop :=
  s = Some "starting" ∨ s = Some "running" ∨ s = Some "stopping".

Definition parked_status (s : option string) : Prop :=
  s = Some "stopped" ∨ s = Some "error".

Definition container_matches_status (w : workspace) : Prop :=
  (container_id w ≠ None → live_status (status w))
  ∧ (container_id w = None → parked_status (status w)).

(** What the handlers maintain instead: a record is running or stopped
    and carries the handle of its container throughout. *)
Definition keeps_container (w : workspace) : Prop :=
  (status w = Some "running" ∨ status w = Some "stopped")
  ∧ container_id w ≠ None.

Definition registry_ok (d : database) : Prop :=
  map_Forall (λ _ w, keeps_container w) (workspaces d).

End Lifecycle.

(** ** Concrete requests and registries used as examples *)

Module Scenarios.
Import Database Express Server Lifecycle.

Definition alice : user := User "1001" "alice".
Definition bob : user := User "1002" "bob".

(** Workspace 5, with a given status and owner. *)
Definition ws5 (st : string) (owner : option string) : workspace :=
  Workspace owner "proj-b" "https://git/y" (Some "c5") (Some st) None 1 1.

Definition registry5 (st : string) (owner : option string) : database :=
  Db {[ 5 := ws5 st owner ]} 5.

(** A released, stopped workspace that has no container yet. *)
Definition pooled : workspace :=
  Workspace None "proj-c" "https://git/z" None (Some "stopped") None 1 1.

Definition pool : database := Db {[ 7 := pooled ]} 7.

(** The users table once alice and bob have logged in. *)
Definition registered : gmap string Users.user_row :=
  {[ "1001" := Users.UserRow "alice" None None None None 0 0;
     "1002" := Users.UserRow "bob" None None None None 0 0 ]}.

(** The create request of scenario A. *)
Definition proj_a : create_body :=
  CreateBody (Text "proj-a") (Text "https://git/x") None.

Definition create_proj_a : operation :=
  Create registered (Some alice) proj_a (Resolved "c1") 10.

(** A session in the middle of the OAuth round trip. *)
Definition pending : session := Session (Some "legit-value") None None.

(** A [req.logIn] that regenerates the session around the user. *)
Definition regenerate (s : session) (u : user) : string + session :=
  inr (Session None None (Some u)).

Definition docs_options : AuthCommon.options :=
  AuthCommon.Options (Some "/")
    (AuthCommon.ErrorMessages (Some "auth error") (Some "auth failed")
       (Some "login error")).

End Scenarios.

(** ** database.js: the remaining statements *)

Module Queries.
Import Database.

(** A row as [SELECT *] returns it: the [id] and the other columns. *)
Definition row : Type := Z * workspace.

(** [ORDER BY created_at DESC].  SQL leaves the order of rows with equal
    [created_at] open; the sort used here fixes one. *)
Definition newer_first (a b : row) : Prop := created_at b.2 ≤ created_at a.2.

#[export] Instance newer_first_dec a b : Decision (newer_first a b).
Proof. unfold newer_first. apply _. Defined.

Definition order_by_created_at_desc (l : list row) : list row :=
  merge_sort newer_first l.

(** [SELECT * FROM workspaces WHERE user_id = ? OR user_id IS NULL
    ORDER BY created_at DESC] *)
Definition getUserWorkspaces (d : database) (userId : string) : list row :=
  order_by_created_at_desc
    (filter (λ r : row, user_id r.2 = Some userId ∨ user_id r.2 = None)
       (map_to_list (workspaces d))).

(** [SELECT * FROM workspaces ORDER BY created_at DESC] *)
Definition getAllWorkspaces (d : database) : list row :=
  order_by_created_at_desc (map_to_list (workspaces d)).

(** [SELECT * FROM workspaces WHERE user_id = ? AND name = ?]; [stmt.get]
    returns the first row found, or [undefined]. *)
Definition getWorkspaceByName (d : database) (userId n : string)
  : option row :=
  head (filter (λ r : row, user_id r.2 = Some userId ∧ name r.2 = n)
          (map_to_list (workspaces d))).

(** [SELECT * FROM workspaces WHERE name = ?] *)
Definition getWorkspaceByNameOnly (d : database) (n : string) : option row :=
  head (filter (λ r : row, name r.2 = n) (map_to_list (workspaces d))).

Definition set_build_status (b : option string) (now : Z) (w : workspace)
  : workspace :=
  {| user_id := user_id w; name := name w; repo_url := repo_url w;
     container_id := container_id w; status := status w;
     devcontainer_build_status := b;
     created_at := created_at w; updated_at := now |}.

(** [updateWorkspaceDevcontainerBuildStatus(id, buildStatus)] *)
Definition updateWorkspaceDevcontainerBuildStatus (d : database) (i : Z)
    (b : option string) (now : Z) : database * changes :=
  update_where d i (λ _, true) (set_build_status b now).

(** One call of a function of [database.js] that writes to [workspaces];
    a call whose statement is checked against [users] comes with the
    users table of that moment. *)
Inductive statement :=
| CreateWorkspace (users : gmap string Users.user_row) (w : new_workspace)
                  (now : Z)
| UpdateWorkspaceStatus (i : Z) (s : string) (e : option string) (now : Z)
| UpdateWorkspaceContainer (i : Z) (c : option string) (s : string)
                           (e : option string) (now : Z)
| UpdateWorkspaceOwner (users : gmap string Users.user_row) (i : Z)
                       (u : option string) (e : string) (now : Z)
| ReleaseWorkspace (i : Z) (u e : string) (now : Z)
| AcquireWorkspace (users : gmap string Users.user_row) (i : Z)
                   (u e : string) (now : Z)
| DeleteWorkspace (i : Z)
| UpdateWorkspaceDevcontainerBuildStatus (i : Z) (b : option string) (now : Z).

(** The table after the call; a call that throws leaves it as it was. *)
Definition execute (d : database) (st : statement) : database :=
  match st with
  | CreateWorkspace users w now =>
      match createWorkspace users d w now with
      | inl _ => d
      | inr (_, d') => d'
      end
  | UpdateWorkspaceStatus i s e now => (updateWorkspaceStatus d i s e now).1
  | UpdateWorkspaceContainer i c s e now =>
      (updateWorkspaceContainer d i c s e now).1
  | UpdateWorkspaceOwner users i u e now =>
      match updateWorkspaceOwner users d i u e now with
      | inl _ => d
      | inr (d', _) => d'
      end
  | ReleaseWorkspace i u e now => (releaseWorkspace d i u e now).1
  | AcquireWorkspace users i u e now =>
      match acquireWorkspace users d i u e now with
      | inl _ => d
      | inr (d', _) => d'
      end
  | DeleteWorkspace i => (deleteWorkspace d i).1
  | UpdateWorkspaceDevcontainerBuildStatus i b now =>
      (updateWorkspaceDevcontainerBuildStatus d i b now).1
  end.

Definition execute_all (sts : list statement) (d : database) : database :=
  foldl execute d sts.

(** [UNIQUE(name)] as a property of the table. *)
Definition names_unique (d : database) : Prop :=
  ∀ i j w1 w2,
    workspaces d !! i = Some w1 → workspaces d !! j = Some w2 →
    name w1 = name w2 → i = j.

(** Every rowid in use is covered by the AUTOINCREMENT counter. *)
Definition sequence_covers (d : database) : Prop :=
  ∀ i w, workspaces d !! i = Some w → i ≤ sqlite_sequence d.

End Queries.

(** ** app/server.js: GET /api/workspaces *)

Module Listing.
Import Database Express Server Queries.

(** [inr rows] is [res.json(workspaces)]. *)
Definition list_workspaces_handler (d : database) (u : option user)
  : response + list row :=
  match u with
  | None => inl unauthorized
  | Some usr => inr (getUserWorkspaces d (id usr))
  end.

(** Every recorded name passes the check of the create route. *)
Definition names_valid (d : database) : Prop :=
  map_Forall (λ _ w, valid_name (name w) = true) (workspaces d).

(** The text the driver stores for a field is the string the regular
    expression tested: so for every string, and for a number that the
    driver binds as an integer. *)
Definition stored_as_tested (v : field) : Prop :=
  ∀ n, bound v = inr n → n = shown v.

Definition name_stored_as_tested (op : Lifecycle.operation) : Prop :=
  match op with
  | Lifecycle.Create _ _ b _ _ => stored_as_tested (body_name b)
  | _ => True
  end.

End Listing.

(** ** auth-common.js: the strategy's verify function *)

Module GitHubStrategy.
Import Express.

(** The calls the verify function of [configureGitHubAuth] makes. *)
Inductive verify_call :=
| FetchUserOrgs (accessToken : string)          (* GET api.github.com/user/orgs *)
| OnAuthSuccess (accessToken username : string). (* the application's hook *)

Definition not_a_member (username organization : string) : string :=
  "ユーザー " +:+ username +:+ " は組織 " +:+ organization
  +:+ " に所属していません".

(** [orgs] is the settled [checkMembership()] call, the [login] of each
    organization it returned; [hook] is the settled [onAuthSuccess] call,
    [None] when it returned a falsy value.  The result is what is handed
    to [done]. *)
Definition verify (targetOrganization : option string)
    (accessToken username : string)
    (orgs : settled (list string)) (hook : settled (option user))
  : authenticated * list verify_call :=
  let after_gate (before : list verify_call) :=
    match hook with
    | Rejected message =>
        (AuthError message, (before ++ [OnAuthSuccess accessToken username])%list)
    | Resolved None =>
        (AuthFail (Some "認証に失敗しました"),
         (before ++ [OnAuthSuccess accessToken username])%list)
    | Resolved (Some u) =>
        (AuthSuccess u, (before ++ [OnAuthSuccess accessToken username])%list)
    end in
  if truthy targetOrganization then
    let organization := default "" targetOrganization in
    match orgs with
    | Rejected message => (AuthError message, [FetchUserOrgs accessToken])
    | Resolved logins =>
        if bool_decide (organization ∈ logins)
        then after_gate [FetchUserOrgs accessToken]
        else (AuthFail (Some (not_a_member username organization)),
              [FetchUserOrgs accessToken])
    end
  else after_gate [].

End GitHubStrategy.

(** ** Further concrete tables and requests *)

Module MoreScenarios.
Import Database Express Queries.

Definition new_a : new_workspace :=
  NewWorkspace (Some "1001") "proj-a" "https://git/x" (Some "c1")
    (Some "running").

Definition new_b : new_workspace :=
  NewWorkspace None "proj-b" "https://git/y" None (Some "stopped").

Definition row_a : workspace :=
  Workspace (Some "1001") "proj-a" "https://git/x" (Some "c1")
    (Some "running") None 10 10.

Definition row_b : workspace :=
  Workspace None "proj-b" "https://git/y" None (Some "stopped") None 11 11.

(** Workspace 1 is owned and running, workspace 2 is released and
    stopped. *)
Definition two_rows : database :=
  execute_all [CreateWorkspace Scenarios.registered new_a 10;
               CreateWorkspace Scenarios.registered new_b 11] initialize.

Definition octocat : Users.user_object :=
  Users.UserObject "583231" "octocat" (Some "The Octocat") None None
    (Some "gho_token").

Definition octocat_row (created updated : Z) : Users.user_row :=
  Users.UserRow "octocat" (Some "The Octocat") None None (Some "gho_token")
    created updated.

End MoreScenarios.

(** * Properties *)

Import Database Express.

(** ** The embedding on small inputs *)

Section Checks.
Import Server Scenarios.

Example valid_name_accepts : valid_name "proj-a_01" = true.
Proof. reflexivity. Qed.

Example valid_name_rejects_space : valid_name "proj a" = false.
Proof. reflexivity. Qed.

Example valid_name_rejects_empty : valid_name "" = false.
Proof. reflexivity. Qed.

Example create_rejects_missing_repo :
  create_handler registered initialize (Some alice)
    (CreateBody (Text "proj-a") Undefined None) (Resolved "c1") 10
  = (Json 400 (JsonError "Name and repository URL are required"),
     initialize, []).
Proof. reflexivity. Qed.

(** The number 2147483648 as a name: truthy, tested as its decimal
    digits, stored by the driver as a floating-point text. *)
Example create_with_numeric_name :
  create_handler registered initialize (Some alice)
    (CreateBody (NonText false "2147483648" (inr "2147483648.0"))
       (Text "https://git/x") None) (Resolved "c1") 10
  = (Json 200 (JsonContainer "c1"),
     Db {[ 1 := Workspace (Some "1001") "2147483648.0" "https://git/x"
                  (Some "c1") (Some "running") None 10 10 ]} 1,
     [createWorkspace_call "alice"
        (NonText false "2147483648" (inr "2147483648.0"))
        (Text "https://git/x") []]).
Proof. by vm_compute. Qed.

Example create_by_unregistered_user :
  create_handler ∅ initialize (Some alice)
    (CreateBody (Text "proj-a") (Text "https://git/x") None) (Resolved "c1") 10
  = (Json 500 (JsonError "FOREIGN KEY constraint failed"), initialize,
     [createWorkspace_call "alice" (Text "proj-a") (Text "https://git/x") []]).
Proof. by vm_compute. Qed.

Example create_at_last_rowid :
  createWorkspace registered (Db ∅ 9223372036854775807)
    (NewWorkspace None "proj-a" "https://git/x" None None) 10
  = inl SQLITE_FULL.
Proof. by vm_compute. Qed.

Example create_last_rowid :
  createWorkspace registered (Db ∅ 9223372036854775806)
    (NewWorkspace None "proj-a" "https://git/x" None None) 10
  = inr (9223372036854775807,
         Db {[ 9223372036854775807 :=
                 Workspace None "proj-a" "https://git/x" None None None 10 10 ]}
            9223372036854775807).
Proof. by vm_compute. Qed.

Example acquire_by_unregistered_user :
  acquireWorkspace registered pool 7 "9999" "stopped" 20
  = inl SQLITE_CONSTRAINT_FOREIGNKEY.
Proof. by vm_compute. Qed.

Example acquire_of_owned_workspace_by_unregistered_user :
  acquireWorkspace registered (registry5 "stopped" (Some "1001")) 5 "9999"
    "stopped" 20
  = inr (registry5 "stopped" (Some "1001"), 0%nat).
Proof. by vm_compute. Qed.

Example start_requires_session :
  start_handler (registry5 "stopped" (Some "1001")) None 5 (Resolved ()) 20
  = (Json 401 JsonUnauthorized, registry5 "stopped" (Some "1001"), []).
Proof. reflexivity. Qed.

Example start_by_other_user_not_found :
  start_handler (registry5 "stopped" (Some "1001")) (Some bob) 5
    (Resolved ()) 20
  = (Json 404 (JsonError "Workspace not found"),
     registry5 "stopped" (Some "1001"), []).
Proof. by vm_compute. Qed.

Example cas_status_applies :
  updateWorkspaceStatus (registry5 "stopped" (Some "1001")) 5 "starting"
    (Some "stopped") 20
  = (Db {[ 5 := Workspace (Some "1001") "proj-b" "https://git/y" (Some "c5")
                  (Some "starting") None 1 20 ]} 5, 1%nat).
Proof. by vm_compute. Qed.

Example cas_status_refuses :
  updateWorkspaceStatus (registry5 "running" (Some "1001")) 5 "starting"
    (Some "stopped") 20
  = (registry5 "running" (Some "1001"), 0%nat).
Proof. by vm_compute. Qed.

Example callback_accepts_matching_state :
  auth_github_callback regenerate (Some "legit-value") pending
    (AuthSuccess bob)
  = (Redirect (Path "/dashboard"), Session None None (Some bob),
     [PassportAuthenticate; LogIn bob]).
Proof. by vm_compute. Qed.

End Checks.

(** ** The registry *)

Section Registry.
Implicit Types (d : database) (t : gmap Z workspace) (w : workspace).

Lemma name_taken_true n t :
  name_taken n t = true ↔ ∃ i w, t !! i = Some w ∧ name w = n.
Proof. unfold name_taken. rewrite bool_decide_eq_true. reflexivity. Qed.

Lemma name_taken_false n t :
  name_taken n t = false ↔ ∀ i w, t !! i = Some w → name w ≠ n.
Proof.
  unfold name_taken. rewrite bool_decide_eq_false, map_not_Exists.
  reflexivity.
Qed.

Lemma max_rowid_ge t k w : t !! k = Some w → k ≤ max_rowid t.
Proof.
  unfold max_rowid. revert k w.
  apply (map_fold_weak_ind
           (λ r m, ∀ k w, m !! k = Some w → k ≤ r)).
  - intros k w. rewrite lookup_empty. discriminate.
  - intros i x m r _ IH k w. rewrite lookup_insert.
    case_decide as Hk.
    + intros _. subst. lia.
    + intros Hl. specialize (IH _ _ Hl). lia.
Qed.

Lemma next_rowid_fresh d : workspaces d !! next_rowid d = None.
Proof.
  destruct (workspaces d !! next_rowid d) as [w|] eqn:E; [|done].
  apply max_rowid_ge in E. unfold next_rowid in E. lia.
Qed.

Lemma update_where_hit d i w cond set :
  workspaces d !! i = Some w → cond w = true →
  update_where d i cond set
  = (Db (<[i := set w]> (workspaces d)) (sqlite_sequence d), 1%nat).
Proof. intros Hl Hc. unfold update_where. by rewrite Hl, Hc. Qed.

Lemma update_where_miss d i w cond set :
  workspaces d !! i = Some w → cond w = false →
  update_where d i cond set = (d, 0%nat).
Proof. intros Hl Hc. unfold update_where. by rewrite Hl, Hc. Qed.

Lemma update_where_absent d i cond set :
  workspaces d !! i = None → update_where d i cond set = (d, 0%nat).
Proof. intros Hl. unfold update_where. by rewrite Hl. Qed.

Lemma acquire_cond_true w e :
  bool_decide (user_id w = None) && status_is e w = true
  ↔ user_id w = None ∧ status w = Some e.
Proof.
  unfold status_is.
  rewrite andb_true_iff, !bool_decide_eq_true. reflexivity.
Qed.

Lemma release_cond_true w u e :
  bool_decide (user_id w = Some u) && status_is e w = true
  ↔ user_id w = Some u ∧ status w = Some e.
Proof.
  unfold status_is.
  rewrite andb_true_iff, !bool_decide_eq_true. reflexivity.
Qed.

End Registry.

Section Ownership.
Import Lifecycle.
Implicit Types (d : database) (w : workspace)
  (users : gmap string Users.user_row).

Lemma acquireWorkspace_miss users d i w u e now :
  workspaces d !! i = Some w → ¬ (user_id w = None ∧ status w = Some e) →
  acquireWorkspace users d i u e now = inr (d, 0%nat).
Proof.
  intros Hl Hc. unfold acquireWorkspace.
  rewrite (update_where_miss d i w); [done|done|].
  apply not_true_is_false. by rewrite acquire_cond_true.
Qed.

Lemma acquireWorkspace_hit users d i w u e now :
  workspaces d !! i = Some w → user_id w = None → status w = Some e →
  acquireWorkspace users d i u e now
  = if bool_decide (is_Some (users !! u))
    then inr (Db (<[i := set_owner (Some u) now w]> (workspaces d))
                 (sqlite_sequence d), 1%nat)
    else inl SQLITE_CONSTRAINT_FOREIGNKEY.
Proof.
  intros Hl Ho Hs. unfold acquireWorkspace.
  rewrite (update_where_hit d i w) by (done || by apply acquire_cond_true).
  unfold check_owner. cbn. by case_bool_decide.
Qed.

(** Once a workspace has an owner, further acquire calls change nothing. *)
Lemma acquire_all_owned users d i w e calls :
  workspaces d !! i = Some w → user_id w ≠ None →
  acquire_all users d i e calls = (d, replicate (length calls) (inr 0%nat)).
Proof.
  intros Hl Hown. induction calls as [|[u now] rest IH]; [done|].
  cbn [acquire_all length replicate].
  rewrite (acquireWorkspace_miss users d i w) by (done || by intros [? _]).
  by rewrite IH.
Qed.

(** C6 (as the code has it): [acquireWorkspace(id, userId,
    expectedStatus)] on an existing workspace succeeds, that is changes a
    row, if and only if the workspace's owner is null, its status equals
    [expectedStatus] and [userId] is the id of a registered user; on
    success the owner becomes [userId], the update time is stamped and
    every other column and row is as before.  For a [userId] that is not
    registered, a call on a released workspace with the expected status
    throws the foreign-key error; in every case but success the table is
    unchanged.  Consequently, of any number of acquire calls against the
    same released workspace with the matching expected status, served in
    any order, at most one succeeds: the first one served whose user is
    registered; the calls before it throw, the calls after it report no
    change. *)
Theorem acquireWorkspace_exclusive users d i w u e now :
  workspaces d !! i = Some w →
  ((∃ d', acquireWorkspace users d i u e now = inr (d', 1%nat))
     ↔ user_id w = None ∧ status w = Some e ∧ is_Some (users !! u))
  ∧ (user_id w = None ∧ status w = Some e ∧ is_Some (users !! u) →
     acquireWorkspace users d i u e now
     = inr (Db (<[i := {| user_id := Some u;
                          name := name w;
                          repo_url := repo_url w;
                          container_id := container_id w;
                          status := status w;
                          devcontainer_build_status :=
                            devcontainer_build_status w;
                          created_at := created_at w;
                          updated_at := now |}]> (workspaces d))
               (sqlite_sequence d), 1%nat))
  ∧ (user_id w = None ∧ status w = Some e ∧ users !! u = None →
     acquireWorkspace users d i u e now = inl SQLITE_CONSTRAINT_FOREIGNKEY)
  ∧ (¬ (user_id w = None ∧ status w = Some e) →
     acquireWorkspace users d i u e now = inr (d, 0%nat))
  ∧ (user_id w = None ∧ status w = Some e →
     (∀ calls, Forall (λ c, users !! c.1 = None) calls →
        acquire_all users d i e calls
        = (d, replicate (length calls) (inl SQLITE_CONSTRAINT_FOREIGNKEY)))
     ∧ (is_Some (users !! u) →
        ∀ before rest, Forall (λ c, users !! c.1 = None) before →
          acquire_all users d i e (before ++ (u, now) :: rest)%list
          = (Db (<[i := {| user_id := Some u;
                           name := name w;
                           repo_url := repo_url w;
                           container_id := container_id w;
                           status := status w;
                           devcontainer_build_status :=
                             devcontainer_build_status w;
                           created_at := created_at w;
                           updated_at := now |}]> (workspaces d))
                (sqlite_sequence d),
             (replicate (length before) (inl SQLITE_CONSTRAINT_FOREIGNKEY)
              ++ inr 1%nat :: replicate (length rest) (inr 0%nat))%list))).
Proof.
  intros Hl.
  assert (Hhit : user_id w = None ∧ status w = Some e ∧ is_Some (users !! u) →
    acquireWorkspace users d i u e now
    = inr (Db (<[i := set_owner (Some u) now w]> (workspaces d))
              (sqlite_sequence d), 1%nat)).
  { intros (Ho & Hs & Hu). rewrite (acquireWorkspace_hit users d i w) by done.
    by rewrite bool_decide_eq_true_2. }
  assert (Hfk : user_id w = None ∧ status w = Some e ∧ users !! u = None →
    acquireWorkspace users d i u e now = inl SQLITE_CONSTRAINT_FOREIGNKEY).
  { intros (Ho & Hs & Hu). rewrite (acquireWorkspace_hit users d i w) by done.
    rewrite bool_decide_eq_false_2; [done|]. rewrite Hu. by intros [? ?]. }
  assert (Hthrow : user_id w = None → status w = Some e →
    ∀ calls, Forall (λ c, users !! c.1 = None) calls →
      acquire_all users d i e calls
      = (d, replicate (length calls) (inl SQLITE_CONSTRAINT_FOREIGNKEY))).
  { intros Ho Hs calls Hcalls.
    induction Hcalls as [|[v t] calls Hv _ IH]; [done|].
    cbn [acquire_all length replicate].
    rewrite (acquireWorkspace_hit users d i w) by done.
    rewrite bool_decide_eq_false_2 by (cbn in Hv; rewrite Hv; by intros [? ?]).
    by rewrite IH. }
  split_and!; [|done|done|by apply acquireWorkspace_miss|].
  - split.
    + intros [d' Hd'].
      destruct (decide (user_id w = None ∧ status w = Some e)) as [[Ho Hs]|Hc].
      * split_and!; [done..|].
        rewrite (acquireWorkspace_hit users d i w) in Hd' by done.
        by case_bool_decide.
      * by rewrite (acquireWorkspace_miss users d i w) in Hd'.
    + intros Hc. eexists. by apply Hhit.
  - intros [Ho Hs]. split; [by apply Hthrow|].
    intros Hu before rest Hbefore.
    induction Hbefore as [|[v t] before Hv _ IH]; cbn [app].
    + cbn [acquire_all]. rewrite Hhit by done.
      rewrite (acquire_all_owned users _ i (set_owner (Some u) now w));
        [done|cbn; apply lookup_insert_eq|done].
    + cbn [acquire_all length replicate app].
      rewrite (acquireWorkspace_hit users d i w) by done.
      rewrite bool_decide_eq_false_2 by (cbn in Hv; rewrite Hv; by intros [? ?]).
      by rewrite IH.
Qed.

(** C7: [releaseWorkspace(id, expectedOwnerId, expectedStatus)] on an
    existing workspace changes a row (succeeds) if and only if the
    workspace's owner equals [expectedOwnerId] and its status equals
    [expectedStatus]; on success the owner becomes null, the update time
    is stamped, and every other column and row is as before; in every
    other case, also when no workspace has that id, it reports zero
    changes and leaves the table as it was. *)
Theorem releaseWorkspace_guarded d i u e now :
  (∀ w, workspaces d !! i = Some w →
     ((releaseWorkspace d i u e now).2 = 1%nat
        ↔ user_id w = Some u ∧ status w = Some e)
     ∧ (user_id w = Some u ∧ status w = Some e →
        releaseWorkspace d i u e now
        = (Db (<[i := {| user_id := None;
                         name := name w;
                         repo_url := repo_url w;
                         container_id := container_id w;
                         status := status w;
                         devcontainer_build_status :=
                           devcontainer_build_status w;
                         created_at := created_at w;
                         updated_at := now |}]> (workspaces d))
              (sqlite_sequence d), 1%nat))
     ∧ (¬ (user_id w = Some u ∧ status w = Some e) →
        releaseWorkspace d i u e now = (d, 0%nat)))
  ∧ (workspaces d !! i = None → releaseWorkspace d i u e now = (d, 0%nat)).
Proof.
  split; [|intros Hl; by apply update_where_absent].
  intros w Hl.
  assert (Hhit : user_id w = Some u ∧ status w = Some e →
                 releaseWorkspace d i u e now
                 = (Db (<[i := set_owner None now w]> (workspaces d))
                       (sqlite_sequence d), 1%nat)).
  { intros Hc. unfold releaseWorkspace.
    apply update_where_hit; [done|]. by apply release_cond_true. }
  assert (Hmiss : ¬ (user_id w = Some u ∧ status w = Some e) →
                  releaseWorkspace d i u e now = (d, 0%nat)).
  { intros Hc. unfold releaseWorkspace.
    apply (update_where_miss d i w); [done|].
    apply not_true_is_false. by rewrite release_cond_true. }
  split_and!; try done. split.
  - intros Hn. destruct (decide (user_id w = Some u ∧ status w = Some e))
      as [|Hc]; [done|]. rewrite (Hmiss Hc) in Hn. discriminate.
  - intros Hc. by rewrite (Hhit Hc).
Qed.

End Ownership.

(** ** The lifecycle handlers of the workspaces server *)

Section Handlers.
Import Server Lifecycle.
Implicit Types (d : database) (w : workspace) (usr : user).

Lemma owned_workspace_owner d usr i w :
  workspaces d !! i = Some w → user_id w = Some (id usr) →
  owned_workspace d (Some usr) i = inr w.
Proof.
  intros Hl Ho. unfold owned_workspace, getWorkspace. rewrite Hl.
  by rewrite bool_decide_eq_true_2.
Qed.

Lemma updateWorkspaceStatus_force d i w s now :
  workspaces d !! i = Some w →
  updateWorkspaceStatus d i s None now
  = (Db (<[i := set_status s now w]> (workspaces d)) (sqlite_sequence d),
     1%nat).
Proof. intros Hl. by apply update_where_hit. Qed.

(** What the start handler does for the owner of an existing workspace:
    the current status plays no part. *)
Lemma start_handler_owned d usr i w rt now :
  workspaces d !! i = Some w → user_id w = Some (id usr) →
  start_handler d (Some usr) i rt now
  = (match rt with
     | Resolved _ =>
         (Json 200 JsonSuccess,
          Db (<[i := set_status "running" now w]> (workspaces d))
             (sqlite_sequence d))
     | Rejected message => (Json 500 (JsonError message), d)
     end,
     [startWorkspace_call (container_id w)]).
Proof.
  intros Hl Ho. unfold start_handler, start_before, start_after.
  rewrite (owned_workspace_owner d usr i w) by done.
  destruct rt; [|done].
  by rewrite (updateWorkspaceStatus_force d i w).
Qed.

Lemma stop_handler_owned d usr i w rt now :
  workspaces d !! i = Some w → user_id w = Some (id usr) →
  stop_handler d (Some usr) i rt now
  = (match rt with
     | Resolved _ =>
         (Json 200 JsonSuccess,
          Db (<[i := set_status "stopped" now w]> (workspaces d))
             (sqlite_sequence d))
     | Rejected message => (Json 500 (JsonError message), d)
     end,
     [stopWorkspace_call (container_id w)]).
Proof.
  intros Hl Ho. unfold stop_handler, stop_before, stop_after.
  rewrite (owned_workspace_owner d usr i w) by done.
  destruct rt; [|done].
  by rewrite (updateWorkspaceStatus_force d i w).
Qed.





(** C2 (as the code has it): for every start or stop request of the owner
    in which the Runtime call fails, the caller receives a 500 response
    that carries the Runtime's error message, and the table is left
    exactly as it was: the record keeps the status it had before the
    call (it is not set to error) and its containerId. *)
Theorem runtime_failure_leaves_record d usr i w message now :
  workspaces d !! i = Some w → user_id w = Some (id usr) →
  start_handler d (Some usr) i (Rejected message) now
    = (Json 500 (JsonError message), d,
       [startWorkspace_call (container_id w)])
  ∧ stop_handler d (Some usr) i (Rejected message) now
    = (Json 500 (JsonError message), d,
       [stopWorkspace_call (container_id w)])
  ∧ workspaces (start_handler d (Some usr) i (Rejected message) now).1.2 !! i
    = Some w
  ∧ workspaces (stop_handler d (Some usr) i (Rejected message) now).1.2 !! i
    = Some w.
Proof.
  intros Hl Ho.
  rewrite (start_handler_owned d usr i w), (stop_handler_owned d usr i w)
    by done.
  done.
Qed.

End Handlers.

(** ** Invariant of the registry under the lifecycle handlers *)

Section Invariant.
Import Server Lifecycle.
Implicit Types (d : database) (w : workspace).

Lemma update_where_ok d i cond set :
  (∀ w, keeps_container w → keeps_container (set w)) →
  registry_ok d → registry_ok (update_where d i cond set).1.
Proof.
  intros Hset Hd. unfold update_where.
  destruct (workspaces d !! i) as [w|] eqn:Hl; [|done].
  destruct (cond w); [|done]. cbn.
  apply map_Forall_insert_2; [|done]. apply Hset. by apply (Hd i).
Qed.

Lemma set_status_ok s now w :
  s = "running" ∨ s = "stopped" →
  keeps_container w → keeps_container (set_status s now w).
Proof.
  intros Hrs [_ Hc]. split; [|done]. cbn.
  destruct Hrs as [-> | ->]; [by left|by right].
Qed.

Lemma create_after_ok users d c rt now :
  registry_ok d → registry_ok (create_after users d c rt now).2.
Proof.
  intros Hd. unfold create_after, createWorkspace.
  destruct rt as [cid|]; [|done].
  destruct (bound (req_name c)) as [|n]; [done|].
  destruct (bound (req_repoUrl c)) as [|r]; [done|].
  destruct (MAX_ROWID <? next_rowid d); [done|].
  destruct (name_taken _ _); [done|].
  destruct (negb _); [done|]. cbn.
  apply map_Forall_insert_2; [|done]. split; cbn; [by left|done].
Qed.

(** The writes after the [await] preserve the invariant on whatever table
    they find, so interleaved requests preserve it as well. *)
Lemma start_after_ok d i rt now :
  registry_ok d → registry_ok (start_after d i rt now).2.
Proof.
  intros Hd. unfold start_after. destruct rt; [|done]. cbn.
  apply update_where_ok; [|done]. intros w. apply set_status_ok. by left.
Qed.

Lemma stop_after_ok d i rt now :
  registry_ok d → registry_ok (stop_after d i rt now).2.
Proof.
  intros Hd. unfold stop_after. destruct rt; [|done]. cbn.
  apply update_where_ok; [|done]. intros w. apply set_status_ok. by right.
Qed.

Lemma deleteWorkspace_ok d i : registry_ok d → registry_ok (deleteWorkspace d i).1.
Proof.
  intros Hd. unfold deleteWorkspace.
  destruct (workspaces d !! i); [|done]. cbn. by apply map_Forall_delete.
Qed.

Lemma run_operation_ok d op : registry_ok d → registry_ok (run_operation d op).
Proof.
  intros Hd.
  destruct op as [users u b rt now|u i rt now|u i rt now|u i rt]; cbn.
  - unfold create_handler. destruct (create_before u b) as [r|c]; [done|].
    pose proof (create_after_ok users d c rt now Hd) as Hc.
    by destruct (create_after users d c rt now).
  - unfold start_handler. destruct (start_before d u i); [done|].
    pose proof (start_after_ok d i rt now Hd) as Hc.
    by destruct (start_after d i rt now).
  - unfold stop_handler. destruct (stop_before d u i); [done|].
    pose proof (stop_after_ok d i rt now Hd) as Hc.
    by destruct (stop_after d i rt now).
  - unfold delete_handler. destruct (owned_workspace d u i); [done|].
    destruct rt; [|done]. cbn. by apply deleteWorkspace_ok.
Qed.

Lemma run_ok ops d : registry_ok d → registry_ok (run ops d).
Proof.
  revert d. induction ops as [|op ops IH]; intros d Hd; [done|].
  cbn. apply IH. by apply run_operation_ok.
Qed.

(** Start and stop requests never touch the container id of any record. *)
Lemma start_stop_keep_container d u i rt now j w :
  workspaces d !! j = Some w →
  (∃ w', workspaces (start_handler d u i rt now).1.2 !! j = Some w'
         ∧ container_id w' = container_id w)
  ∧ (∃ w', workspaces (stop_handler d u i rt now).1.2 !! j = Some w'
           ∧ container_id w' = container_id w).
Proof.
  intros Hl.
  assert (Hupd : ∀ s, ∃ w',
    workspaces (updateWorkspaceStatus d i s None now).1 !! j = Some w'
    ∧ container_id w' = container_id w).
  { intros s. cbn. unfold update_where.
    destruct (workspaces d !! i) as [wi|] eqn:Hi; [|by exists w].
    cbn. rewrite lookup_insert. case_decide as Hij; [|by exists w].
    subst. exists (set_status s now wi). split; [done|]. cbn. congruence. }
  split.
  - unfold start_handler. destruct (start_before d u i); [by exists w|].
    unfold start_after. destruct rt; [apply Hupd|by exists w].
  - unfold stop_handler. destruct (stop_before d u i); [by exists w|].
    unfold stop_after. destruct rt; [apply Hupd|by exists w].
Qed.

(** C3 (as the code has it): after any sequence of create, start, stop
    (and delete) requests on an initially empty registry, every
    workspace record has status running or stopped and a non-null
    containerId; start and stop never change the containerId of a
    record.  So "containerId == null implies stopped or error" holds
    only because no record has a null containerId, and a non-null
    containerId does not imply a live status: a stopped workspace keeps
    the handle of its container. *)
Theorem container_kept_in_every_state ops i w :
  workspaces (run ops initialize) !! i = Some w →
  (status w = Some "running" ∨ status w = Some "stopped")
  ∧ container_id w ≠ None
  ∧ (container_id w = None → parked_status (status w))
  ∧ (∀ u j rt now,
       (∃ w', workspaces (start_handler (run ops initialize) u j rt now).1.2
                !! i = Some w' ∧ container_id w' = container_id w)
       ∧ (∃ w', workspaces (stop_handler (run ops initialize) u j rt now).1.2
                  !! i = Some w' ∧ container_id w' = container_id w)).
Proof.
  intros Hl.
  assert (Hok : registry_ok (run ops initialize)).
  { apply run_ok. unfold registry_ok, initialize. cbn. apply map_Forall_empty. }
  destruct (Hok i w Hl) as [Hs Hc]. split_and!; [done|done|done|].
  intros u j rt now. by apply start_stop_keep_container.
Qed.

End Invariant.

(** ** Creating and fetching a workspace *)

Section CreateAndFetch.
Import Server.
Implicit Types (d : database) (w : workspace) (usr : user)
  (users : gmap string Users.user_row).

Lemma references_user_true users (u : option string) :
  references_user users u = true ↔ ∀ v, u = Some v → is_Some (users !! v).
Proof.
  destruct u as [v|]; cbn.
  - rewrite bool_decide_eq_true. split; [by intros H ? [= <-]|by intros H; apply H].
  - split; [by intros _ ? ?|done].
Qed.

Lemma references_user_false users (u : option string) :
  references_user users u = false ↔ ∃ v, u = Some v ∧ users !! v = None.
Proof.
  destruct u as [v|]; cbn.
  - rewrite bool_decide_eq_false, <- eq_None_not_Some. split.
    + intros H. by exists v.
    + by intros (? & [= <-] & H).
  - split; [done|by intros (? & ? & _)].
Qed.

(** The four outcomes of [createWorkspace], in the order SQLite reaches
    them. *)
Lemma createWorkspace_cases users d nw now :
  createWorkspace users d nw now
  = if MAX_ROWID <? next_rowid d then inl SQLITE_FULL
    else if name_taken (new_name nw) (workspaces d)
    then inl SQLITE_CONSTRAINT_UNIQUE
    else if references_user users (userId nw)
    then inr (next_rowid d,
              Db (<[next_rowid d := {| user_id := userId nw;
                                       name := new_name nw;
                                       repo_url := repoUrl nw;
                                       container_id := containerId nw;
                                       status := new_status nw;
                                       devcontainer_build_status := None;
                                       created_at := now;
                                       updated_at := now |}]> (workspaces d))
                 (next_rowid d))
    else inl SQLITE_CONSTRAINT_FOREIGNKEY.
Proof.
  unfold createWorkspace.
  destruct (MAX_ROWID <? next_rowid d); [done|].
  destruct (name_taken _ _); [done|].
  by destruct (references_user _ _).
Qed.

(** C5 (as the code has it): [createWorkspace] fails, and writes nothing,
    whenever a workspace with the same name already exists, with the
    UNIQUE constraint error as long as a rowid is left.  When the name is
    free it inserts a new record, provided a rowid is left and the owner
    passed is null or the id of a registered user: the record sits under
    a fresh id, which is returned, and its owner, name, repository,
    status and containerId are the ones the caller passes; every other
    record is untouched.  With an unregistered owner it fails with the
    foreign-key error, and when no rowid is left with SQLITE_FULL.  The
    POST /api/workspaces handler passes status running and the container
    id the Runtime returned, so the record it creates is running with a
    non-null containerId; on a duplicate name it answers 500 and the
    table is unchanged. *)
Theorem createWorkspace_unique_name users d nw now :
  ((∃ i w, workspaces d !! i = Some w ∧ name w = new_name nw) →
     (∃ e, createWorkspace users d nw now = inl e)
     ∧ (next_rowid d ≤ MAX_ROWID →
        createWorkspace users d nw now = inl SQLITE_CONSTRAINT_UNIQUE))
  ∧ (MAX_ROWID < next_rowid d →
     createWorkspace users d nw now = inl SQLITE_FULL)
  ∧ ((∀ i w, workspaces d !! i = Some w → name w ≠ new_name nw) →
     next_rowid d ≤ MAX_ROWID →
     ((∃ v, userId nw = Some v ∧ users !! v = None) →
        createWorkspace users d nw now = inl SQLITE_CONSTRAINT_FOREIGNKEY)
     ∧ ((∀ v, userId nw = Some v → is_Some (users !! v)) →
        workspaces d !! next_rowid d = None
        ∧ createWorkspace users d nw now
          = inr (next_rowid d,
                 Db (<[next_rowid d :=
                         {| user_id := userId nw;
                            name := new_name nw;
                            repo_url := repoUrl nw;
                            container_id := containerId nw;
                            status := new_status nw;
                            devcontainer_build_status := None;
                            created_at := now;
                            updated_at := now |}]> (workspaces d))
                    (next_rowid d))))
  ∧ (∀ c cid n r,
       bound (req_name c) = inr n → bound (req_repoUrl c) = inr r →
       next_rowid d ≤ MAX_ROWID →
       ((∃ i w, workspaces d !! i = Some w ∧ name w = n) →
          create_after users d c (Resolved cid) now
          = (Json 500 (JsonError "UNIQUE constraint failed: workspaces.name"),
             d))
       ∧ ((∀ i w, workspaces d !! i = Some w → name w ≠ n) →
          is_Some (users !! id (creator c)) →
          create_after users d c (Resolved cid) now
          = (Json 200 (JsonContainer cid),
             Db (<[next_rowid d :=
                     {| user_id := Some (id (creator c));
                        name := n;
                        repo_url := r;
                        container_id := Some cid;
                        status := Some "running";
                        devcontainer_build_status := None;
                        created_at := now;
                        updated_at := now |}]> (workspaces d))
                (next_rowid d)))).
Proof.
  assert (Hfull : MAX_ROWID < next_rowid d →
                  (MAX_ROWID <? next_rowid d) = true) by (intros; lia).
  assert (Hroom : next_rowid d ≤ MAX_ROWID →
                  (MAX_ROWID <? next_rowid d) = false) by (intros; lia).
  split_and!.
  - intros Hdup. apply name_taken_true in Hdup. split.
    + rewrite createWorkspace_cases, Hdup.
      destruct (MAX_ROWID <? next_rowid d); by eexists.
    + intros Hr. by rewrite createWorkspace_cases, (Hroom Hr), Hdup.
  - intros Hf. by rewrite createWorkspace_cases, (Hfull Hf).
  - intros Hfree Hr. apply name_taken_false in Hfree. split.
    + intros Hfk. apply references_user_false in Hfk.
      by rewrite createWorkspace_cases, (Hroom Hr), Hfree, Hfk.
    + intros Hreg. apply references_user_true in Hreg.
      split; [apply next_rowid_fresh|].
      by rewrite createWorkspace_cases, (Hroom Hr), Hfree, Hreg.
  - intros c cid n r Hn Hrepo Hr. unfold create_after. rewrite Hn, Hrepo.
    rewrite createWorkspace_cases, (Hroom Hr). cbn. split.
    + intros Hdup. apply name_taken_true in Hdup. by rewrite Hdup.
    + intros Hfree Hreg. apply name_taken_false in Hfree.
      by rewrite Hfree, bool_decide_eq_true_2.
Qed.

(** C9 (as the code has it): for every authenticated
    GET /api/workspaces/:id request the response is 200 with the
    workspace exactly when the workspace exists and is owned by the
    requesting user, and 404 otherwise; in particular a released
    workspace (owner null) is answered 404. *)
Theorem get_workspace_owner_only d usr i :
  (∀ w, workspaces d !! i = Some w → user_id w = Some (id usr) →
        get_workspace_handler d (Some usr) i = Json 200 (JsonRow i w))
  ∧ (∀ w, workspaces d !! i = Some w → user_id w ≠ Some (id usr) →
          get_workspace_handler d (Some usr) i = not_found)
  ∧ (∀ w, workspaces d !! i = Some w → user_id w = None →
          http_status (get_workspace_handler d (Some usr) i) = 404)
  ∧ (workspaces d !! i = None →
     get_workspace_handler d (Some usr) i = not_found)
  ∧ (http_status (get_workspace_handler d (Some usr) i) = 200
     ↔ ∃ w, workspaces d !! i = Some w ∧ user_id w = Some (id usr)).
Proof.
  unfold get_workspace_handler, getWorkspace. split_and!.
  - intros w -> Ho. by rewrite bool_decide_eq_true_2.
  - intros w -> Ho. by rewrite bool_decide_eq_false_2.
  - intros w -> Ho. rewrite bool_decide_eq_false_2; [done|]. by rewrite Ho.
  - by intros ->.
  - destruct (workspaces d !! i) as [w|]; [|cbn; split; [done|by intros (? & ? & _)]].
    case_bool_decide as Ho; cbn.
    + split; [by exists w|done].
    + split; [done|]. intros (w' & [= <-] & Ho'). done.
Qed.

End CreateAndFetch.

(** ** The OAuth state check *)

Section OAuth.
Implicit Types (s : session) (a : authenticated).
Variable logIn : session → user → string + session.

(** C4 (as the code has it): for every OAuth callback request whose
    [state] query parameter differs from the nonce stored in the
    session, on the workspaces server as well as through the shared
    [handleCallback], the response is a 403 rejection, neither passport
    nor [req.logIn] is called, so no authenticated session is
    established, and the session is left exactly as it was: the stored
    nonce stays in the session (it is deleted only when the check
    passes). *)
Theorem state_mismatch_rejected (o : AuthCommon.options)
    (query_state : option string) s a (save_err : option string) :
  query_state ≠ oauthState s →
  Server.auth_github_callback logIn query_state s a
    = (Send 403 "Invalid state parameter. Please try logging in again.",
       s, [])
  ∧ (∃ text,
       AuthCommon.handleCallback o logIn query_state s a save_err
       = (Send 403 text, s, []))
  ∧ (∀ q' s', oauthState s' = q' → truthy q' = true →
       (Server.callback_verify_state q' s').2
         = {| oauthState := None; returnTo := returnTo s';
              passport_user := passport_user s' |}
       ∧ (AuthCommon.verify_state q' s').2
         = {| oauthState := None; returnTo := returnTo s';
              passport_user := passport_user s' |}).
Proof.
  intros Hne. split_and!.
  - unfold Server.auth_github_callback, Server.callback_verify_state.
    by rewrite bool_decide_eq_false_2.
  - unfold AuthCommon.handleCallback, AuthCommon.verify_state.
    destruct (truthy (oauthState s)); cbn; [|by eexists].
    rewrite bool_decide_eq_false_2 by done. by eexists.
  - intros q' s' <- Ht.
    unfold Server.callback_verify_state, AuthCommon.verify_state.
    rewrite Ht. by rewrite bool_decide_eq_true_2.
Qed.

(** The shared [initiateAuth] saves the session, nonce and return target
    included, before it hands over to passport, and answers 500 instead
    of redirecting when the save fails. *)
Lemma initiateAuth_saves_first state query_returnTo s save_err :
  ∃ s', oauthState s' = Some state
    ∧ (truthy query_returnTo = true → returnTo s' = query_returnTo)
    ∧ AuthCommon.initiateAuth state query_returnTo s save_err
      = match save_err with
        | Some _ => (Send 500 "Session error", s', [SessionSave s'])
        | None =>
            (Redirect (ProviderAuthorize state
                         ["user:email"; "read:org"; "repo"]),
             s', [SessionSave s'; PassportAuthenticate])
        end.
Proof.
  eexists. split_and!; [| |unfold AuthCommon.initiateAuth; reflexivity].
  - done.
  - cbn. by intros ->.
Qed.

(** C8: for every invocation of the OAuth initiate operation the session,
    holding the fresh nonce and any return target, is persisted before
    the redirect to the identity provider is issued.  The shared
    [initiateAuth] saves the session itself before it hands over to
    passport, and when that save fails it answers 500 and does not
    redirect.  On the workspaces server's GET /auth/github the session
    with the nonce is saved at the end of the response, before the
    redirect goes out, unless the store already holds exactly that
    session; its store is the process's own memory, where a save cannot
    fail. *)
Theorem session_persisted_before_redirect state
    (query_returnTo : option string) s :
  (∃ s', oauthState s' = Some state
         ∧ returnTo s' = (if truthy query_returnTo then query_returnTo
                          else returnTo s)
         ∧ passport_user s' = passport_user s
         ∧ AuthCommon.initiateAuth state query_returnTo s None
           = (Redirect (ProviderAuthorize state
                          ["user:email"; "read:org"; "repo"]),
              s', [SessionSave s'; PassportAuthenticate])
         ∧ ∀ err, AuthCommon.initiateAuth state query_returnTo s (Some err)
                  = (Send 500 "Session error", s', [SessionSave s']))
  ∧ (∃ s', oauthState s' = Some state
           ∧ returnTo s' = returnTo s
           ∧ passport_user s' = passport_user s
           ∧ (oauthState s ≠ Some state →
              Server.auth_github_route state s
              = [Saved s';
                 Sent (Redirect (ProviderAuthorize state ["user:email"]))])
           ∧ (oauthState s = Some state →
              s' = s
              ∧ Server.auth_github_route state s
                = [Sent (Redirect (ProviderAuthorize state ["user:email"]))])).
Proof.
  split.
  - exists {| oauthState := Some state;
              returnTo := if truthy query_returnTo then query_returnTo
                          else returnTo s;
              passport_user := passport_user s |}.
    by split_and!.
  - exists {| oauthState := Some state; returnTo := returnTo s;
              passport_user := passport_user s |}.
    split_and!; [done|done|done|..];
      unfold Server.auth_github_route, Server.auth_github, end_response;
      destruct s as [os rt pu]; cbn.
    + intros Hne. rewrite bool_decide_eq_false_2; [done|]. congruence.
    + intros ->. by rewrite bool_decide_eq_true_2.
Qed.

(** C10: on the workspaces server's OAuth callback route, a request
    without a [state] query parameter whose session holds no nonce (both
    undefined) passes the state check, and control proceeds to the
    provider authentication instead of the request being rejected.  The
    route has no separate session-lost check: its first middleware lets
    a request through exactly when the two values are equal. *)
Theorem callback_without_nonce_proceeds
    (rt : option string) (pu : option user) a :
  Server.callback_verify_state None (Session None rt pu)
    = (None, Session None rt pu)
  ∧ Server.auth_github_callback logIn None (Session None rt pu) a
    = Server.callback_authenticate logIn (Session None rt pu) a
  ∧ PassportAuthenticate
      ∈ (Server.auth_github_callback logIn None (Session None rt pu) a).2
  ∧ http_status
      (Server.auth_github_callback logIn None (Session None rt pu) a).1.1
    ≠ 403
  ∧ (∀ query_state s,
       (Server.callback_verify_state query_state s).1 = None
       ↔ query_state = oauthState s).
Proof.
  assert (Hpass : Server.auth_github_callback logIn None (Session None rt pu) a
                  = Server.callback_authenticate logIn (Session None rt pu) a)
    by done.
  split_and!; [done|done| | |].
  - rewrite Hpass. unfold Server.callback_authenticate.
    destruct a as [m|info|u]; [apply list_elem_of_here..|].
    destruct (logIn _ u); apply list_elem_of_here.
  - rewrite Hpass. unfold Server.callback_authenticate.
    destruct a as [m|info|u]; [done..|].
    by destruct (logIn _ u).
  - intros q s. unfold Server.callback_verify_state.
    case_bool_decide; cbn; split; done.
Qed.

(** The shared [handleCallback] rejects the same request as a lost
    session. *)
Lemma handleCallback_without_nonce_rejected (o : AuthCommon.options)
    (rt : option string) (pu : option user) a (save_err : option string) :
  AuthCommon.handleCallback o logIn None (Session None rt pu) a save_err
  = (Send 403 "Session lost during authentication. Please try logging in again.",
     Session None rt pu, []).
Proof. reflexivity. Qed.

End OAuth.

(** ** The properties at concrete requests *)

Section Examples.
Import Server Lifecycle Scenarios.



(** C2, against the claim as worded: the Runtime call of a start request
    on the stopped workspace 5 fails; the caller receives 500, and the
    record still says stopped, not error. *)
Lemma failed_start_status_not_error :
  start_handler (registry5 "stopped" (Some "1001")) (Some alice) 5
    (Rejected "container failed to start") 20
  = (Json 500 (JsonError "container failed to start"),
     registry5 "stopped" (Some "1001"),
     [startWorkspace_call (Some "c5")])
  ∧ status <$>
      workspaces
        (start_handler (registry5 "stopped" (Some "1001")) (Some alice) 5
           (Rejected "container failed to start") 20).1.2 !! 5
    = Some (Some "stopped")
  ∧ status <$>
      workspaces
        (start_handler (registry5 "stopped" (Some "1001")) (Some alice) 5
           (Rejected "container failed to start") 20).1.2 !! 5
    ≠ Some (Some "error").
Proof. split_and!; by vm_compute. Qed.

Lemma runtime_failure_leaves_record_witness :
  workspaces (registry5 "stopped" (Some "1001")) !! 5
    = Some (ws5 "stopped" (Some "1001"))
  ∧ user_id (ws5 "stopped" (Some "1001")) = Some (id alice)
  ∧ stop_handler (registry5 "stopped" (Some "1001")) (Some alice) 5
      (Rejected "timeout") 20
    = (Json 500 (JsonError "timeout"), registry5 "stopped" (Some "1001"),
       [stopWorkspace_call (Some "c5")]).
Proof.
  split; [reflexivity|]. split; [reflexivity|].
  exact (proj1 (proj2
    (runtime_failure_leaves_record (registry5 "stopped" (Some "1001"))
       alice 5 (ws5 "stopped" (Some "1001")) "timeout" 20
       eq_refl eq_refl))).
Defined.

(** C3, against the claim as worded: create a workspace, then stop it;
    the record is stopped and still has its containerId. *)
Lemma stopped_workspace_keeps_container :
  workspaces
    (run [create_proj_a; Stop (Some alice) 1 (Resolved ()) 20] initialize)
    !! 1
  = Some (Workspace (Some "1001") "proj-a" "https://git/x" (Some "c1")
            (Some "stopped") None 10 20)
  ∧ ¬ container_matches_status
        (Workspace (Some "1001") "proj-a" "https://git/x" (Some "c1")
           (Some "stopped") None 10 20).
Proof.
  split; [by vm_compute|].
  intros [Hlive _]. destruct Hlive as [H|[H|H]]; done.
Qed.

Lemma container_kept_in_every_state_witness :
  workspaces
    (run [create_proj_a; Stop (Some alice) 1 (Resolved ()) 20] initialize)
    !! 1
  = Some (Workspace (Some "1001") "proj-a" "https://git/x" (Some "c1")
            (Some "stopped") None 10 20)
  ∧ container_id
      (Workspace (Some "1001") "proj-a" "https://git/x" (Some "c1")
         (Some "stopped") None 10 20) ≠ None.
Proof.
  split; [reflexivity|].
  exact (proj1 (proj2
    (container_kept_in_every_state
       [create_proj_a; Stop (Some alice) 1 (Resolved ()) 20] 1
       (Workspace (Some "1001") "proj-a" "https://git/x" (Some "c1")
          (Some "stopped") None 10 20) eq_refl))).
Defined.

(** C4, against the claim as worded: scenario D.  The callback carries
    [state=attacker-value] while the session holds [legit-value]; the
    request is rejected with 403, and afterwards the session still holds
    the nonce, on either route. *)
Lemma mismatch_keeps_nonce :
  auth_github_callback regenerate (Some "attacker-value") pending
    (AuthSuccess bob)
  = (Send 403 "Invalid state parameter. Please try logging in again.",
     pending, [])
  ∧ AuthCommon.handleCallback docs_options regenerate
      (Some "attacker-value") pending (AuthSuccess bob) None
    = (Send 403 "Invalid state parameter. Please try logging in again.",
       pending, [])
  ∧ oauthState
      (auth_github_callback regenerate (Some "attacker-value") pending
         (AuthSuccess bob)).1.2 = Some "legit-value"
  ∧ oauthState
      (AuthCommon.handleCallback docs_options regenerate
         (Some "attacker-value") pending (AuthSuccess bob) None).1.2
    ≠ None.
Proof. split_and!; by vm_compute. Qed.

Lemma state_mismatch_rejected_witness :
  Some "attacker-value" ≠ oauthState pending
  ∧ auth_github_callback regenerate (Some "attacker-value") pending
      (AuthSuccess bob)
    = (Send 403 "Invalid state parameter. Please try logging in again.",
       pending, []).
Proof.
  assert (Hne : Some "attacker-value" ≠ oauthState pending)
    by (vm_compute; discriminate).
  split; [exact Hne|].
  exact (proj1
    (state_mismatch_rejected regenerate docs_options
       (Some "attacker-value") pending (AuthSuccess bob) None Hne)).
Defined.

(** C5, against the claim as worded: scenario A.  The workspace created
    for [proj-a] is recorded as running, with the container id the
    Runtime returned, not as stopped with a null containerId; creating
    it a second time fails and leaves the first record in place. *)
Lemma created_workspace_is_running :
  create_handler registered initialize (Some alice) proj_a (Resolved "c1") 10
  = (Json 200 (JsonContainer "c1"),
     Db {[ 1 := Workspace (Some "1001") "proj-a" "https://git/x"
                  (Some "c1") (Some "running") None 10 10 ]} 1,
     [createWorkspace_call "alice" (Text "proj-a") (Text "https://git/x") []])
  ∧ status <$>
      workspaces
        (create_handler registered initialize (Some alice) proj_a
           (Resolved "c1") 10).1.2 !! 1
    ≠ Some (Some "stopped")
  ∧ container_id <$>
      workspaces
        (create_handler registered initialize (Some alice) proj_a
           (Resolved "c1") 10).1.2 !! 1
    ≠ Some None
  ∧ create_handler registered (run [create_proj_a] initialize) (Some bob)
      proj_a (Resolved "c2") 11
    = (Json 500 (JsonError "UNIQUE constraint failed: workspaces.name"),
       run [create_proj_a] initialize,
       [createWorkspace_call "bob" (Text "proj-a") (Text "https://git/x") []]).
Proof. split_and!; by vm_compute. Qed.

Lemma createWorkspace_unique_name_witness :
  (∀ i w, workspaces initialize !! i = Some w → name w ≠ "proj-a")
  ∧ next_rowid initialize ≤ MAX_ROWID
  ∧ (∀ v, Some "1001" = Some v → is_Some (registered !! v))
  ∧ createWorkspace registered initialize
      (NewWorkspace (Some "1001") "proj-a" "https://git/x" None
         (Some "stopped")) 11
    = inr (1, Db {[ 1 := Workspace (Some "1001") "proj-a" "https://git/x"
                           None (Some "stopped") None 11 11 ]} 1)
  ∧ (∃ i w, workspaces (run [create_proj_a] initialize) !! i = Some w
            ∧ name w = "proj-a")
  ∧ createWorkspace registered (run [create_proj_a] initialize)
      (NewWorkspace (Some "1002") "proj-a" "https://git/x2" None
         (Some "stopped")) 11
    = inl SQLITE_CONSTRAINT_UNIQUE.
Proof.
  assert (Hfree : ∀ i w, workspaces initialize !! i = Some w
                         → name w ≠ "proj-a").
  { intros i w Hl. cbn in Hl. by rewrite lookup_empty in Hl. }
  assert (Hroom : next_rowid initialize ≤ MAX_ROWID) by (by vm_compute).
  assert (Hreg : ∀ v, Some "1001" = Some v → is_Some (registered !! v)).
  { intros v [= <-]. by eexists. }
  assert (Hdup : ∃ i w, workspaces (run [create_proj_a] initialize) !! i
                        = Some w ∧ name w = "proj-a").
  { exists 1, (Workspace (Some "1001") "proj-a" "https://git/x" (Some "c1")
                 (Some "running") None 10 10).
    split; reflexivity. }
  assert (Hroom' : next_rowid (run [create_proj_a] initialize) ≤ MAX_ROWID)
    by (by vm_compute).
  split; [exact Hfree|]. split; [exact Hroom|]. split; [exact Hreg|].
  split.
  - exact (proj2 (proj2 (proj1 (proj2 (proj2
      (createWorkspace_unique_name registered initialize
         (NewWorkspace (Some "1001") "proj-a" "https://git/x" None
            (Some "stopped")) 11))) Hfree Hroom) Hreg)).
  - split; [exact Hdup|].
    exact (proj2 (proj1
      (createWorkspace_unique_name registered (run [create_proj_a] initialize)
         (NewWorkspace (Some "1002") "proj-a" "https://git/x2" None
            (Some "stopped")) 11) Hdup) Hroom').
Defined.

(** C6, against the claim as worded: workspace 7 is released and stopped,
    and the call expects stopped, yet for a user id that is no row of
    [users] the call does not succeed: it throws the foreign-key error
    and the workspace stays released. *)
Lemma acquire_by_unknown_user_fails :
  workspaces pool !! 7 = Some pooled
  ∧ user_id pooled = None
  ∧ status pooled = Some "stopped"
  ∧ registered !! "9999" = None
  ∧ acquireWorkspace registered pool 7 "9999" "stopped" 20
    = inl SQLITE_CONSTRAINT_FOREIGNKEY
  ∧ (¬ ∃ d', acquireWorkspace registered pool 7 "9999" "stopped" 20
             = inr (d', 1%nat))
  ∧ acquire_all registered pool 7 "stopped" [("9999", 20); ("9998", 21)]
    = (pool, [inl SQLITE_CONSTRAINT_FOREIGNKEY;
              inl SQLITE_CONSTRAINT_FOREIGNKEY]).
Proof.
  split_and!; try by vm_compute.
  intros [d' Hd']. vm_compute in Hd'. discriminate.
Qed.

Lemma acquireWorkspace_exclusive_witness :
  workspaces pool !! 7 = Some pooled
  ∧ (user_id pooled = None ∧ status pooled = Some "stopped")
  ∧ is_Some (registered !! "1001")
  ∧ Forall (λ c : string * Z, registered !! c.1 = None) [("9999", 19)]
  ∧ acquire_all registered pool 7 "stopped"
      [("9999", 19); ("1001", 20); ("1002", 21); ("1003", 22)]
    = (Db {[ 7 := Workspace (Some "1001") "proj-c" "https://git/z" None
                    (Some "stopped") None 1 20 ]} 7,
       [inl SQLITE_CONSTRAINT_FOREIGNKEY; inr 1%nat; inr 0%nat; inr 0%nat]).
Proof.
  assert (Hreg : is_Some (registered !! "1001")) by (by eexists).
  assert (Hbefore : Forall (λ c : string * Z, registered !! c.1 = None)
                      [("9999", 19)]) by (by repeat constructor).
  split; [reflexivity|]. split; [split; reflexivity|].
  split; [exact Hreg|]. split; [exact Hbefore|].
  destruct (acquireWorkspace_exclusive registered pool 7 pooled "1001"
              "stopped" 20 eq_refl) as (_ & _ & _ & _ & Hall).
  destruct (Hall (conj eq_refl eq_refl)) as [_ Hfirst].
  exact (Hfirst Hreg [("9999", 19)] [("1002", 21); ("1003", 22)] Hbefore).
Defined.

(** Scenario E: the owner can release workspace 5 once it is stopped,
    which returns it to the pool, and cannot while it runs. *)
Lemma releaseWorkspace_guarded_witness :
  workspaces (registry5 "stopped" (Some "1001")) !! 5
    = Some (ws5 "stopped" (Some "1001"))
  ∧ (user_id (ws5 "stopped" (Some "1001")) = Some "1001"
     ∧ status (ws5 "stopped" (Some "1001")) = Some "stopped")
  ∧ releaseWorkspace (registry5 "stopped" (Some "1001")) 5 "1001" "stopped" 20
    = (Db {[ 5 := Workspace None "proj-b" "https://git/y" (Some "c5")
                    (Some "stopped") None 1 20 ]} 5, 1%nat)
  ∧ workspaces (registry5 "running" (Some "1001")) !! 5
    = Some (ws5 "running" (Some "1001"))
  ∧ ¬ (user_id (ws5 "running" (Some "1001")) = Some "1001"
       ∧ status (ws5 "running" (Some "1001")) = Some "stopped")
  ∧ releaseWorkspace (registry5 "running" (Some "1001")) 5 "1001" "stopped" 20
    = (registry5 "running" (Some "1001"), 0%nat).
Proof.
  assert (Hno : ¬ (user_id (ws5 "running" (Some "1001")) = Some "1001"
                   ∧ status (ws5 "running" (Some "1001")) = Some "stopped"))
    by (intros [_ Hst]; vm_compute in Hst; discriminate).
  split; [reflexivity|]. split; [split; reflexivity|]. split.
  - exact (proj1 (proj2
      (proj1 (releaseWorkspace_guarded (registry5 "stopped" (Some "1001")) 5
                "1001" "stopped" 20)
         (ws5 "stopped" (Some "1001")) eq_refl)) (conj eq_refl eq_refl)).
  - split; [reflexivity|]. split; [exact Hno|].
    exact (proj2 (proj2
      (proj1 (releaseWorkspace_guarded (registry5 "running" (Some "1001")) 5
                "1001" "stopped" 20)
         (ws5 "running" (Some "1001")) eq_refl)) Hno).
Defined.

Lemma session_persisted_before_redirect_witness :
  oauthState (Session None None None) ≠ Some "ab12"
  ∧ auth_github_route "ab12" (Session None None None)
    = [Saved (Session (Some "ab12") None None);
       Sent (Redirect (ProviderAuthorize "ab12" ["user:email"]))].
Proof.
  assert (Hne : oauthState (Session None None None) ≠ Some "ab12")
    by discriminate.
  split; [exact Hne|].
  destruct (session_persisted_before_redirect "ab12" None
              (Session None None None))
    as [_ ([os rt pu] & Hos & Hrt & Hpu & Hsave & _)].
  cbn in Hos, Hrt, Hpu. subst os rt pu. exact (Hsave Hne).
Defined.

(** C9, against the claim as worded: workspace 5 is released; an
    authenticated user who fetches it is answered 404, not 200. *)
Lemma released_workspace_not_found :
  workspaces (registry5 "stopped" None) !! 5 = Some (ws5 "stopped" None)
  ∧ user_id (ws5 "stopped" None) = None
  ∧ get_workspace_handler (registry5 "stopped" None) (Some alice) 5
    = Json 404 (JsonError "Workspace not found")
  ∧ http_status
      (get_workspace_handler (registry5 "stopped" None) (Some alice) 5)
    ≠ 200.
Proof. split_and!; by vm_compute. Qed.

Lemma get_workspace_owner_only_witness :
  workspaces (registry5 "stopped" (Some "1001")) !! 5
    = Some (ws5 "stopped" (Some "1001"))
  ∧ user_id (ws5 "stopped" (Some "1001")) = Some (id alice)
  ∧ get_workspace_handler (registry5 "stopped" (Some "1001")) (Some alice) 5
    = Json 200 (JsonRow 5 (ws5 "stopped" (Some "1001"))).
Proof.
  split; [reflexivity|]. split; [reflexivity|].
  exact (proj1
    (get_workspace_owner_only (registry5 "stopped" (Some "1001")) alice 5)
    (ws5 "stopped" (Some "1001")) eq_refl eq_refl).
Defined.

End Examples.

(** ** Conditional updates of the registry *)

Section ConditionalUpdates.
Import Queries.
Implicit Types (d : database) (w : workspace) (st : statement).

Lemma update_where_changes d i cond set :
  (update_where d i cond set).2 = 0%nat ∨ (update_where d i cond set).2 = 1%nat.
Proof.
  unfold update_where. destruct (workspaces d !! i) as [w|]; [|by left].
  destruct (cond w); [by right|by left].
Qed.

Lemma update_where_lookup_ne d i j cond set :
  i ≠ j →
  workspaces (update_where d i cond set).1 !! j = workspaces d !! j.
Proof.
  intros Hij. unfold update_where.
  destruct (workspaces d !! i) as [w|]; [|done].
  destruct (cond w); [|done]. cbn. by rewrite lookup_insert_ne.
Qed.

Lemma update_where_lookup d i w cond set :
  workspaces d !! i = Some w →
  workspaces (update_where d i cond set).1 !! i
  = Some (if cond w then set w else w).
Proof.
  intros Hl. unfold update_where. rewrite Hl.
  destruct (cond w); [|done]. cbn. apply lookup_insert_eq.
Qed.

Lemma update_where_lookup_None d i j cond set :
  workspaces d !! j = None →
  workspaces (update_where d i cond set).1 !! j = None.
Proof.
  intros Hj. destruct (decide (i = j)) as [->|Hij].
  - unfold update_where. by rewrite Hj.
  - by rewrite update_where_lookup_ne.
Qed.

Lemma update_where_sequence d i cond set :
  sqlite_sequence (update_where d i cond set).1 = sqlite_sequence d.
Proof.
  unfold update_where. destruct (workspaces d !! i) as [w|]; [|done].
  by destruct (cond w).
Qed.

Lemma status_is_true e w : status_is e w = true ↔ status w = Some e.
Proof. unfold status_is. apply bool_decide_eq_true. Qed.

Lemma status_is_false e w : status_is e w = false ↔ status w ≠ Some e.
Proof. unfold status_is. apply bool_decide_eq_false. Qed.


(** X2: [updateWorkspaceContainer] with an expected status rewrites the
    row exactly when its status equals the expected one, and then sets the
    container id and the status together, keeping owner, name, repository
    and creation time; without an expected status it applies to any
    existing row; on a missing row or a status mismatch nothing changes. *)
Theorem updateWorkspaceContainer_compare_and_swap d i w c s now :
  workspaces d !! i = Some w →
  (∀ e, (updateWorkspaceContainer d i c s (Some e) now).2 = 1%nat
        ↔ status w = Some e)
  ∧ (∀ e, status w ≠ Some e →
          updateWorkspaceContainer d i c s (Some e) now = (d, 0%nat))
  ∧ (∀ e, e = None ∨ e = status w →
          ∃ w', workspaces (updateWorkspaceContainer d i c s e now).1 !! i
                = Some w'
                ∧ container_id w' = c ∧ status w' = Some s
                ∧ user_id w' = user_id w ∧ name w' = name w
                ∧ repo_url w' = repo_url w ∧ created_at w' = created_at w
                ∧ devcontainer_build_status w' = devcontainer_build_status w
                ∧ updated_at w' = now).
Proof.
  intros Hl. split_and!.
  - intros e. cbn. unfold update_where. rewrite Hl.
    destruct (status_is e w) eqn:Hc; cbn.
    + by apply status_is_true in Hc.
    + apply status_is_false in Hc. split; [done|]. by intros ?.
  - intros e Hs. apply (update_where_miss d i w); [done|].
    by apply status_is_false.
  - intros e He. exists (set_container c s now w).
    split; [|done].
    destruct e as [e|].
    + destruct He as [?|He]; [done|]. cbn.
      rewrite (update_where_lookup d i w) by done.
      by rewrite (proj2 (status_is_true e w)).
    + cbn. by rewrite (update_where_lookup d i w).
Qed.

End ConditionalUpdates.

(** ** What the statements keep *)

Section Frame.
Import Queries.
Implicit Types (d : database) (w : workspace) (st : statement)
  (users : gmap string Users.user_row).

(** An UPDATE undone by the foreign key leaves the table as an UPDATE
    that matched no row. *)
Lemma check_owner_cases users (u : option string) d i cond set :
  match check_owner users u (update_where d i cond set) with
  | inl _ => d
  | inr (d', _) => d'
  end = (update_where d i cond set).1
  ∨ match check_owner users u (update_where d i cond set) with
    | inl _ => d
    | inr (d', _) => d'
    end = (update_where d i (λ _, false) set).1.
Proof.
  unfold check_owner.
  destruct (bool_decide _ || references_user users u).
  - left. by destruct (update_where d i cond set).
  - right. unfold update_where. by destruct (workspaces d !! i).
Qed.

(** Every statement is an insert, a delete, or an update of one row that
    keeps name, repository and creation time. *)
Lemma execute_cases d st :
  (∃ users nw now, st = CreateWorkspace users nw now)
  ∨ (∃ i, st = DeleteWorkspace i)
  ∨ (∃ i cond set,
       execute d st = (update_where d i cond set).1
       ∧ ∀ w, name (set w) = name w ∧ repo_url (set w) = repo_url w
              ∧ created_at (set w) = created_at w).
Proof.
  destruct st as [users nw now|i s e now|i c s e now|users i u e now
                 |i u e now|users i u e now|i|i b now].
  - left. eauto.
  - right; right. destruct e; cbn; eauto 10.
  - right; right. destruct e; cbn; eauto 10.
  - right; right. cbn. unfold updateWorkspaceOwner.
    destruct (check_owner_cases users u d i (status_is e) (set_owner u now))
      as [->| ->]; eauto 10.
  - right; right. cbn. eauto 10.
  - right; right. cbn. unfold acquireWorkspace.
    destruct (check_owner_cases users (Some u) d i
                (λ w, bool_decide (user_id w = None) && status_is e w)
                (set_owner (Some u) now)) as [->| ->]; eauto 10.
  - right; left. eauto.
  - right; right. cbn. eauto 10.
Qed.

Lemma update_where_origin d i cond set j w' :
  (∀ w, name (set w) = name w) →
  workspaces (update_where d i cond set).1 !! j = Some w' →
  ∃ w, workspaces d !! j = Some w ∧ name w = name w'.
Proof.
  intros Hset. destruct (decide (i = j)) as [->|Hij].
  - destruct (workspaces d !! j) as [w|] eqn:Hl.
    + rewrite (update_where_lookup d j w) by done. intros [= <-].
      exists w. split; [done|]. by destruct (cond w).
    + by rewrite update_where_lookup_None.
  - rewrite update_where_lookup_ne by done. eauto.
Qed.

Lemma createWorkspace_inr users d nw now i d' :
  createWorkspace users d nw now = inr (i, d') →
  i = next_rowid d
  ∧ name_taken (new_name nw) (workspaces d) = false
  ∧ sqlite_sequence d' = i
  ∧ ∃ w, name w = new_name nw ∧ workspaces d' = <[i := w]> (workspaces d).
Proof.
  unfold createWorkspace. destruct (MAX_ROWID <? next_rowid d); [done|].
  destruct (name_taken _ _); [done|]. destruct (negb _); [done|].
  intros [= <- <-]. split_and!; [done..|]. eexists. split; [|done]. done.
Qed.

Lemma names_unique_initialize : names_unique initialize.
Proof. intros i j w1 w2 Hi. cbn in Hi. by rewrite lookup_empty in Hi. Qed.

Lemma execute_names_unique d st : names_unique d → names_unique (execute d st).
Proof.
  intros Hd.
  destruct (execute_cases d st)
    as [(users & nw & now & ->)|[(i & ->)|(i & c & f & -> & Hf)]].
  - cbn. destruct (createWorkspace users d nw now) as [|[k d']] eqn:Hc; [done|].
    apply createWorkspace_inr in Hc as (-> & Hfree & _ & w & Hw & Hd').
    rewrite name_taken_false in Hfree.
    intros i j w1 w2. rewrite Hd', !lookup_insert.
    repeat case_decide; subst; try done.
    + intros [= <-] Hj Hn. destruct (Hfree j w2 Hj). congruence.
    + intros Hi [= <-] Hn. destruct (Hfree i w1 Hi). congruence.
    + apply Hd.
  - cbn. unfold deleteWorkspace.
    destruct (workspaces d !! i) eqn:Hl; [|done]. cbn.
    intros j k w1 w2 Hj Hk. cbn in Hj, Hk.
    apply lookup_delete_Some in Hj as [_ Hj].
    apply lookup_delete_Some in Hk as [_ Hk]. by apply Hd.
  - intros j k w1 w2 Hj Hk Hn.
    apply (update_where_origin d i c f) in Hj as (v1 & Hj & Hn1);
      [|intros w; apply Hf].
    apply (update_where_origin d i c f) in Hk as (v2 & Hk & Hn2);
      [|intros w; apply Hf].
    apply (Hd j k v1 v2); [done..|]. congruence.
Qed.

Lemma execute_all_names_unique sts d :
  names_unique d → names_unique (execute_all sts d).
Proof.
  revert d. induction sts as [|st sts IH]; intros d Hd; [done|].
  cbn. apply IH. by apply execute_names_unique.
Qed.

(** X3: the names in the table stay pairwise distinct under every
    sequence of calls to the writing functions of the registry, starting
    from the empty table or from any table whose names are distinct: no
    update, acquire, release or delete can produce a duplicate, and
    [createWorkspace] refuses one. *)
Theorem names_stay_unique sts :
  names_unique (execute_all sts initialize)
  ∧ ∀ d, names_unique d → names_unique (execute_all sts d).
Proof.
  split.
  - apply execute_all_names_unique, names_unique_initialize.
  - intros d. apply execute_all_names_unique.
Qed.

(** X5: no statement other than [deleteWorkspace] of that very id removes
    a row, and whatever is executed, a row that stays keeps its name,
    repository URL and creation time; a row appears under an unused id
    only through [createWorkspace]. *)
Theorem statements_keep_row_identity d st j :
  (∀ w, workspaces d !! j = Some w → st ≠ DeleteWorkspace j →
        ∃ w', workspaces (execute d st) !! j = Some w'
              ∧ name w' = name w ∧ repo_url w' = repo_url w
              ∧ created_at w' = created_at w)
  ∧ (workspaces d !! j = None →
     (∀ users nw now, st ≠ CreateWorkspace users nw now) →
     workspaces (execute d st) !! j = None).
Proof.
  split.
  - intros w Hl Hst.
    destruct (execute_cases d st)
      as [(users & nw & now & ->)|[(i & ->)|(i & c & f & -> & Hf)]].
    + cbn. destruct (createWorkspace users d nw now) as [|[k d']] eqn:Hc;
        [by exists w|].
      apply createWorkspace_inr in Hc as (-> & _ & _ & w0 & _ & ->).
      exists w. split; [|done]. rewrite lookup_insert_ne; [done|].
      intros <-. by rewrite next_rowid_fresh in Hl.
    + cbn. unfold deleteWorkspace.
      destruct (workspaces d !! i) eqn:Hi; [|by exists w]. cbn.
      exists w. split; [|done]. rewrite lookup_delete_ne; [done|]. congruence.
    + destruct (decide (i = j)) as [->|Hij].
      * rewrite (update_where_lookup d j w) by done.
        eexists. split; [done|]. destruct (c w); [apply Hf|done].
      * rewrite update_where_lookup_ne by done. by exists w.
  - intros Hl Hst.
    destruct (execute_cases d st)
      as [(users & nw & now & ->)|[(i & ->)|(i & c & f & -> & Hf)]].
    + by destruct (Hst users nw now).
    + cbn. unfold deleteWorkspace.
      destruct (workspaces d !! i) eqn:Hi; [|done]. cbn.
      by apply lookup_delete_None; right.
    + by apply update_where_lookup_None.
Qed.

Lemma execute_sequence_mono d st :
  sqlite_sequence d ≤ sqlite_sequence (execute d st).
Proof.
  destruct (execute_cases d st)
    as [(users & nw & now & ->)|[(i & ->)|(i & c & f & -> & Hf)]].
  - cbn. destruct (createWorkspace users d nw now) as [|[k d']] eqn:Hc; [done|].
    apply createWorkspace_inr in Hc as (-> & _ & -> & _).
    unfold next_rowid. lia.
  - cbn. unfold deleteWorkspace. by destruct (workspaces d !! i).
  - by rewrite update_where_sequence.
Qed.

Lemma execute_all_sequence_mono sts d :
  sqlite_sequence d ≤ sqlite_sequence (execute_all sts d).
Proof.
  revert d. induction sts as [|st sts IH]; intros d; [done|].
  cbn. etrans; [apply (execute_sequence_mono d st)|apply IH].
Qed.

(** X4: an id handed out by [createWorkspace] is never handed out again,
    whatever is executed in between, deletions of that very row included:
    every later [createWorkspace] returns a strictly larger id. *)
Theorem rowid_never_reused users d nw now i d' sts users' nw' now' j d'' :
  createWorkspace users d nw now = inr (i, d') →
  createWorkspace users' (execute_all sts d') nw' now' = inr (j, d'') →
  i < j.
Proof.
  intros H1 H2.
  apply createWorkspace_inr in H1 as (_ & _ & Hseq & _).
  apply createWorkspace_inr in H2 as (-> & _).
  pose proof (execute_all_sequence_mono sts d') as Hmono.
  unfold next_rowid. lia.
Qed.

Lemma max_rowid_nonneg (t : gmap Z workspace) : 0 ≤ max_rowid t.
Proof.
  unfold max_rowid.
  apply (map_fold_weak_ind (λ r _, 0 ≤ r)); [done|]. intros; lia.
Qed.

Lemma max_rowid_le (t : gmap Z workspace) b :
  0 ≤ b → (∀ k w, t !! k = Some w → k ≤ b) → max_rowid t ≤ b.
Proof.
  intros Hb. unfold max_rowid.
  apply (map_fold_weak_ind
           (λ r m, (∀ k w, m !! k = Some w → k ≤ b) → r ≤ b)); [done|].
  intros k0 x m r Hk IH Hall.
  assert (k0 ≤ b) by (apply (Hall k0 x), lookup_insert_eq).
  assert (r ≤ b); [|lia].
  apply IH. intros k' x' Hl. apply (Hall k' x').
  rewrite lookup_insert_ne; [done|]. intros <-. by rewrite Hk in Hl.
Qed.

Lemma next_rowid_delete d i :
  next_rowid (deleteWorkspace d i).1 ≤ next_rowid d.
Proof.
  unfold deleteWorkspace. destruct (workspaces d !! i) as [wi|] eqn:Hl; [|done].
  unfold next_rowid. cbn.
  assert (max_rowid (delete i (workspaces d)) ≤ max_rowid (workspaces d));
    [|lia].
  apply max_rowid_le; [apply max_rowid_nonneg|].
  intros k w [_ Hk]%lookup_delete_Some. by apply (max_rowid_ge _ k w).
Qed.

(** X10: while a workspace exists its name is taken, and deleting it
    frees the name: in a table with distinct names and a rowid left,
    [createWorkspace] under the name of row [i] fails with the UNIQUE
    error before [deleteWorkspace(i)], and right after it succeeds for an
    owner that is null or a registered user, recording the name under a
    new id. *)
Theorem delete_frees_name users d i w nw now :
  names_unique d → workspaces d !! i = Some w → new_name nw = name w →
  next_rowid d ≤ MAX_ROWID →
  (∀ v, userId nw = Some v → is_Some (users !! v)) →
  createWorkspace users d nw now = inl SQLITE_CONSTRAINT_UNIQUE
  ∧ deleteWorkspace d i
    = (Db (delete i (workspaces d)) (sqlite_sequence d), 1%nat)
  ∧ ∃ j d', createWorkspace users (deleteWorkspace d i).1 nw now = inr (j, d')
            ∧ workspaces (deleteWorkspace d i).1 !! j = None
            ∧ ∃ w', workspaces d' !! j = Some w' ∧ name w' = name w.
Proof.
  intros Hu Hl Hn Hroom Hreg.
  assert (Hroom' : (MAX_ROWID <? next_rowid d) = false) by lia.
  assert (Hroom'' : (MAX_ROWID <? next_rowid (deleteWorkspace d i).1) = false).
  { pose proof (next_rowid_delete d i). lia. }
  split_and!.
  - rewrite createWorkspace_cases, Hroom'.
    rewrite (proj2 (name_taken_true (new_name nw) (workspaces d))); [done|].
    by exists i, w.
  - unfold deleteWorkspace. by rewrite Hl.
  - rewrite createWorkspace_cases, Hroom''.
    rewrite (proj2 (name_taken_false (new_name nw)
                      (workspaces (deleteWorkspace d i).1))).
    + rewrite (proj2 (references_user_true users (userId nw))) by done.
      eexists _, _. split; [done|]. split; [apply next_rowid_fresh|].
      cbn. eexists. split; [apply lookup_insert_eq|done].
    + unfold deleteWorkspace. rewrite Hl. cbn.
      intros k wk Hk Hnk. apply lookup_delete_Some in Hk as [Hne Hk].
      apply Hne. apply (Hu i k w wk); [done..|]. congruence.
Qed.

(** X8: for a registered user, acquiring a released workspace and
    releasing it again as that user, with the same expected status, both
    succeed and return the workspace to the pool with nothing but the
    update time changed. *)
Theorem acquire_then_release users d i w u e now now' :
  workspaces d !! i = Some w → user_id w = None → status w = Some e →
  is_Some (users !! u) →
  ∃ d1, acquireWorkspace users d i u e now = inr (d1, 1%nat)
        ∧ releaseWorkspace d1 i u e now'
          = (Db (<[i := {| user_id := None;
                           name := name w;
                           repo_url := repo_url w;
                           container_id := container_id w;
                           status := status w;
                           devcontainer_build_status :=
                             devcontainer_build_status w;
                           created_at := created_at w;
                           updated_at := now' |}]> (workspaces d))
                (sqlite_sequence d), 1%nat).
Proof.
  intros Hl Ho Hs Hu. eexists. split.
  - rewrite (acquireWorkspace_hit users d i w) by done.
    by rewrite bool_decide_eq_true_2.
  - unfold releaseWorkspace.
    rewrite (update_where_hit _ i (set_owner (Some u) now w));
      [|cbn; apply lookup_insert_eq|by apply release_cond_true].
    cbn. by rewrite insert_insert_eq.
Qed.

End Frame.

(** ** Listing and looking up workspaces *)

Section Lookups.
Import Queries Listing Server.
Implicit Types (d : database) (w : workspace) (r : row).

#[local] Instance newer_first_total : Total newer_first.
Proof. intros a b. unfold newer_first. lia. Qed.

#[local] Instance newer_first_trans : Transitive newer_first.
Proof. intros a b c. unfold newer_first. lia. Qed.

Lemma elem_of_getUserWorkspaces d u i w :
  (i, w) ∈ getUserWorkspaces d u
  ↔ workspaces d !! i = Some w ∧ (user_id w = Some u ∨ user_id w = None).
Proof.
  unfold getUserWorkspaces, order_by_created_at_desc.
  rewrite merge_sort_Permutation, list_elem_of_filter, elem_of_map_to_list.
  cbn. tauto.
Qed.

(** X6: the list a user gets, from [getUserWorkspaces] and so from
    GET /api/workspaces, holds a workspace exactly when the user owns it
    or it is released, each one once, newest first; a workspace owned by
    somebody else is never in it.  Without a session the route answers
    401. *)
Theorem getUserWorkspaces_owned_or_released d u :
  (∀ i w, (i, w) ∈ getUserWorkspaces d u
          ↔ workspaces d !! i = Some w
            ∧ (user_id w = Some u ∨ user_id w = None))
  ∧ StronglySorted newer_first (getUserWorkspaces d u)
  ∧ NoDup (getUserWorkspaces d u).*1
  ∧ (∀ i w v, workspaces d !! i = Some w → user_id w = Some v → v ≠ u →
              ∀ w', (i, w') ∉ getUserWorkspaces d u)
  ∧ list_workspaces_handler d None = inl (Json 401 JsonUnauthorized)
  ∧ (∀ usr, id usr = u →
            list_workspaces_handler d (Some usr) = inr (getUserWorkspaces d u)).
Proof.
  split_and!.
  - intros i w. apply elem_of_getUserWorkspaces.
  - apply StronglySorted_merge_sort; apply _.
  - unfold getUserWorkspaces, order_by_created_at_desc.
    rewrite merge_sort_Permutation.
    eapply sublist_NoDup; [apply (NoDup_fst_map_to_list (workspaces d))|].
    apply fmap_sublist, sublist_filter.
  - intros i w v Hl Ho Hv w'. rewrite elem_of_getUserWorkspaces.
    intros [Hl' Ho']. rewrite Hl in Hl'. injection Hl' as <-.
    destruct Ho' as [Ho'|Ho']; congruence.
  - done.
  - by intros usr <-.
Qed.

(** X7: releasing a workspace puts it into the list of every user, and
    for a registered user acquiring a released workspace succeeds, keeps
    it in the list of the new owner and takes it out of the list of every
    other user; for a user that is not registered the acquire throws and
    the workspace stays in everybody's list. *)
Theorem pool_visibility (users : gmap string Users.user_row) d i w e now :
  workspaces d !! i = Some w → status w = Some e →
  (∀ u, user_id w = Some u →
        ∀ v, ∃ w', (i, w') ∈ getUserWorkspaces (releaseWorkspace d i u e now).1 v
                   ∧ user_id w' = None ∧ name w' = name w)
  ∧ (∀ u, user_id w = None → is_Some (users !! u) →
          ∃ d', acquireWorkspace users d i u e now = inr (d', 1%nat)
                ∧ (∃ w', (i, w') ∈ getUserWorkspaces d' u
                         ∧ user_id w' = Some u ∧ name w' = name w)
                ∧ ∀ v w', v ≠ u → (i, w') ∉ getUserWorkspaces d' v)
  ∧ (∀ u, user_id w = None → users !! u = None →
          acquireWorkspace users d i u e now = inl SQLITE_CONSTRAINT_FOREIGNKEY
          ∧ ∀ v, (i, w) ∈ getUserWorkspaces d v).
Proof.
  intros Hl Hs. split_and!.
  - intros u Ho v. exists (set_owner None now w). split; [|done].
    apply elem_of_getUserWorkspaces.
    unfold releaseWorkspace.
    rewrite (update_where_hit d i w) by (done || by apply release_cond_true).
    cbn. split; [apply lookup_insert_eq|by right].
  - intros u Ho Hu. eexists. split.
    { rewrite (acquireWorkspace_hit users d i w) by done.
      by rewrite bool_decide_eq_true_2. }
    split.
    + exists (set_owner (Some u) now w). split; [|done].
      apply elem_of_getUserWorkspaces. cbn.
      split; [apply lookup_insert_eq|by left].
    + intros v w' Hv. rewrite elem_of_getUserWorkspaces. cbn.
      rewrite lookup_insert_eq. intros [[= <-] Ho']. cbn in Ho'.
      destruct Ho' as [Ho'|Ho']; congruence.
  - intros u Ho Hu. split.
    + rewrite (acquireWorkspace_hit users d i w) by done.
      rewrite bool_decide_eq_false_2; [done|]. rewrite Hu. by intros [? ?].
    + intros v. apply elem_of_getUserWorkspaces. split; [done|by right].
Qed.

Lemma head_filter_unique {A} (P : A → Prop) `{!∀ x, Decision (P x)}
    (l : list A) x :
  (∀ y z, y ∈ l → z ∈ l → P y → P z → y = z) →
  head (filter P l) = Some x ↔ x ∈ l ∧ P x.
Proof.
  intros Huniq. split.
  - intros Hh. apply head_Some in Hh as [l' Hl'].
    assert (Hx : x ∈ filter P l) by (rewrite Hl'; apply list_elem_of_here).
    apply list_elem_of_filter in Hx. tauto.
  - intros [Hx HP].
    assert (Hin : x ∈ filter P l) by (apply list_elem_of_filter; tauto).
    destruct (filter P l) as [|y l'] eqn:Hf.
    + by apply elem_of_nil in Hin.
    + assert (Hy : y ∈ filter P l) by (rewrite Hf; apply list_elem_of_here).
      apply list_elem_of_filter in Hy as [HPy Hy].
      cbn. f_equal. by apply Huniq.
Qed.

Lemma head_filter_None {A} (P : A → Prop) `{!∀ x, Decision (P x)}
    (l : list A) :
  head (filter P l) = None ↔ ∀ x, x ∈ l → ¬ P x.
Proof.
  rewrite head_None. split.
  - intros Hf x Hx HP.
    assert (Hin : x ∈ filter P l) by (apply list_elem_of_filter; tauto).
    rewrite Hf in Hin. by apply elem_of_nil in Hin.
  - intros Hno. destruct (filter P l) as [|y l'] eqn:Hf; [done|].
    assert (Hy : y ∈ filter P l) by (rewrite Hf; apply list_elem_of_here).
    apply list_elem_of_filter in Hy as [HPy Hy]. by destruct (Hno y).
Qed.

Lemma rows_with_name_unique d n (y z : row) :
  names_unique d →
  y ∈ map_to_list (workspaces d) → z ∈ map_to_list (workspaces d) →
  name y.2 = n → name z.2 = n → y = z.
Proof.
  intros Hu Hy Hz Hny Hnz. destruct y as [i w], z as [j w'].
  apply elem_of_map_to_list in Hy, Hz. cbn in *.
  assert (i = j) as -> by (apply (Hu i j w w'); congruence).
  congruence.
Qed.

Lemma getWorkspaceByNameOnly_Some d n i w :
  names_unique d →
  getWorkspaceByNameOnly d n = Some (i, w)
  ↔ workspaces d !! i = Some w ∧ name w = n.
Proof.
  intros Hu. unfold getWorkspaceByNameOnly. rewrite head_filter_unique.
  - split; intros [Hl Hn]; (split; [by apply elem_of_map_to_list|done]).
  - intros y z Hy Hz Hny Hnz. by apply (rows_with_name_unique d n).
Qed.

Lemma getWorkspaceByNameOnly_None d n :
  getWorkspaceByNameOnly d n = None
  ↔ ∀ i w, workspaces d !! i = Some w → name w ≠ n.
Proof.
  unfold getWorkspaceByNameOnly. rewrite head_filter_None. split.
  - intros Hfree i w Hl. apply (Hfree (i, w)). by apply elem_of_map_to_list.
  - intros Hfree [i w] Hl. apply (Hfree i w). by apply elem_of_map_to_list.
Qed.

(** X9: in a table with distinct names, the lookups by name find exactly
    the row that carries the name: [getWorkspaceByNameOnly] returns it
    whoever owns it, [getWorkspaceByName] only when the given user owns
    it.  When [getWorkspaceByNameOnly] finds a row, every
    [createWorkspace] under that name fails; when it finds nothing, a
    [createWorkspace] under that name succeeds as long as a rowid is left
    and the owner is null or a registered user, and the lookup then
    returns the new row. *)
Theorem lookup_by_name d n :
  names_unique d →
  (∀ i w, getWorkspaceByNameOnly d n = Some (i, w)
          ↔ workspaces d !! i = Some w ∧ name w = n)
  ∧ (∀ u i w, getWorkspaceByName d u n = Some (i, w)
              ↔ workspaces d !! i = Some w ∧ user_id w = Some u ∧ name w = n)
  ∧ (∀ i w, getWorkspaceByNameOnly d n = Some (i, w) →
            ∀ (users : gmap string Users.user_row) nw now,
              new_name nw = n → ∃ e, createWorkspace users d nw now = inl e)
  ∧ (getWorkspaceByNameOnly d n = None → next_rowid d ≤ MAX_ROWID →
     ∀ (users : gmap string Users.user_row) nw now,
       new_name nw = n →
       (∀ v, userId nw = Some v → is_Some (users !! v)) →
       ∃ i d', createWorkspace users d nw now = inr (i, d')
               ∧ getWorkspaceByNameOnly d' n
                 = Some (i, {| user_id := userId nw;
                               name := n;
                               repo_url := repoUrl nw;
                               container_id := containerId nw;
                               status := new_status nw;
                               devcontainer_build_status := None;
                               created_at := now;
                               updated_at := now |})).
Proof.
  intros Hu. split_and!.
  - intros i w. by apply getWorkspaceByNameOnly_Some.
  - intros u i w. unfold getWorkspaceByName.
    rewrite head_filter_unique.
    + split.
      * intros [Hl [Ho Hn]]. by apply elem_of_map_to_list in Hl.
      * intros (Hl & Ho & Hn). split; [by apply elem_of_map_to_list|done].
    + intros y z Hy Hz [_ Hny] [_ Hnz]. by apply (rows_with_name_unique d n).
  - intros i w Hfound users nw now Hn.
    apply getWorkspaceByNameOnly_Some in Hfound as [Hl Hw]; [|done].
    rewrite createWorkspace_cases.
    rewrite (proj2 (name_taken_true (new_name nw) (workspaces d)))
      by (exists i, w; split; congruence).
    destruct (MAX_ROWID <? next_rowid d); by eexists.
  - intros Hnone Hroom users nw now Hn Hreg.
    pose proof (proj1 (getWorkspaceByNameOnly_None d n) Hnone) as Hfree.
    assert (Hroom' : (MAX_ROWID <? next_rowid d) = false) by lia.
    assert (Hc : createWorkspace users d nw now
      = inr (next_rowid d,
             Db (<[next_rowid d := {| user_id := userId nw;
                                      name := new_name nw;
                                      repo_url := repoUrl nw;
                                      container_id := containerId nw;
                                      status := new_status nw;
                                      devcontainer_build_status := None;
                                      created_at := now;
                                      updated_at := now |}]> (workspaces d))
                (next_rowid d))).
    { rewrite createWorkspace_cases, Hroom'.
      rewrite (proj2 (name_taken_false (new_name nw) (workspaces d)))
        by (by rewrite Hn).
      by rewrite (proj2 (references_user_true users (userId nw))). }
    eexists _, _. split; [exact Hc|].
    apply getWorkspaceByNameOnly_Some.
    + pose proof (execute_names_unique d (CreateWorkspace users nw now) Hu)
        as Hu'. cbn in Hu'. by rewrite Hc in Hu'.
    + cbn. split; [|done]. rewrite <- Hn. apply lookup_insert_eq.
Qed.

End Lookups.

(** ** The users table *)

Section UsersTable.
Implicit Types (t : gmap string Users.user_row) (u : Users.user_object).

Lemma username_taken_true t i n :
  Users.username_taken t i n = true
  ↔ ∃ j r, t !! j = Some r ∧ j ≠ i ∧ Users.u_username r = n.
Proof.
  unfold Users.username_taken. rewrite bool_decide_eq_true. reflexivity.
Qed.

Lemma username_taken_false t i n :
  Users.username_taken t i n = false
  ↔ ∀ j r, t !! j = Some r → j ≠ i → Users.u_username r ≠ n.
Proof.
  unfold Users.username_taken.
  rewrite bool_decide_eq_false, map_not_Exists. unfold map_Forall.
  split; intros H j r Hl; specialize (H j r Hl); tauto.
Qed.

(** X11: a successful [upsertUser] followed by [getUserById] returns the
    user as given: every column is the one of the object just written,
    except that the creation time of an id that was already there is
    kept, so a returning user keeps the first-login timestamp.  No other
    user's row is touched. *)
Theorem upsertUser_then_getUserById t u now t' :
  Users.upsertUser t u now = inr t' →
  Users.getUserById t' (Users.id u)
  = Some {| Users.u_username := Users.username u;
            Users.u_display_name := Users.displayName u;
            Users.u_email := Users.email u;
            Users.u_avatar := Users.avatar u;
            Users.u_github_access_token := Users.githubAccessToken u;
            Users.u_created_at :=
              match Users.getUserById t (Users.id u) with
              | Some old => Users.u_created_at old
              | None => now
              end;
            Users.u_updated_at := now |}
  ∧ ∀ j, j ≠ Users.id u → Users.getUserById t' j = Users.getUserById t j.
Proof.
  unfold Users.upsertUser, Users.getUserById.
  destruct (Users.username_taken _ _ _); [done|]. intros [= <-]. split.
  - apply lookup_insert_eq.
  - intros j Hj. by rewrite lookup_insert_ne.
Qed.

Lemma upsertUser_usernames_unique t u now t' :
  Users.usernames_unique t → Users.upsertUser t u now = inr t' →
  Users.usernames_unique t'.
Proof.
  intros Ht. unfold Users.upsertUser.
  destruct (Users.username_taken _ _ _) eqn:Hfree; [done|]. intros [= <-].
  rewrite username_taken_false in Hfree.
  intros i j r1 r2. rewrite !lookup_insert.
  repeat case_decide; subst; try done.
  - intros [= <-] Hj Hn. cbn in Hn. by destruct (Hfree j r2 Hj).
  - intros Hi [= <-] Hn. cbn in Hn. by destruct (Hfree i r1 Hi).
  - apply Ht.
Qed.

Lemma upsert_all_usernames_unique calls t :
  Users.usernames_unique t → Users.usernames_unique (Users.upsert_all calls t).
Proof.
  revert t. induction calls as [|[u now] calls IH]; intros t Ht; [done|].
  cbn. apply IH.
  destruct (Users.upsertUser t u now) as [|t'] eqn:Hu; [done|].
  by apply (upsertUser_usernames_unique t u now).
Qed.

(** X12: [upsertUser] throws exactly when the username is held by a row
    with a different id, and then writes nothing; so whatever users log
    in, in whatever order, no two rows of the table ever share a
    username. *)
Theorem usernames_stay_unique t u now :
  (Users.upsertUser t u now = inl SQLITE_CONSTRAINT_UNIQUE
   ↔ ∃ j r, t !! j = Some r ∧ j ≠ Users.id u
            ∧ Users.u_username r = Users.username u)
  ∧ (∀ calls, Users.usernames_unique (Users.upsert_all calls ∅))
  ∧ (Users.usernames_unique t →
     ∀ calls, Users.usernames_unique (Users.upsert_all calls t)).
Proof.
  split_and!.
  - rewrite <- username_taken_true. unfold Users.upsertUser.
    destruct (Users.username_taken _ _ _); split; done.
  - intros calls. apply upsert_all_usernames_unique.
    intros i j r1 r2 Hi. by rewrite lookup_empty in Hi.
  - intros Ht calls. by apply upsert_all_usernames_unique.
Qed.

End UsersTable.

(** ** More on the lifecycle handlers *)

Section MoreHandlers.
Import Server Lifecycle Listing.
Implicit Types (d : database) (w : workspace) (usr : user).

Lemma owned_workspace_inl d u i :
  (¬ ∃ usr w, u = Some usr ∧ workspaces d !! i = Some w
              ∧ user_id w = Some (id usr)) →
  ∃ r, owned_workspace d u i = inl r
       ∧ get_workspace_handler d u i = r
       ∧ (http_status r = 401 ∨ http_status r = 404).
Proof.
  intros Hno. unfold owned_workspace, get_workspace_handler, getWorkspace.
  destruct u as [usr|]; [|exists unauthorized; by auto].
  destruct (workspaces d !! i) as [w|] eqn:Hl; [|exists not_found; by auto].
  case_bool_decide as Ho; [|exists not_found; by auto].
  destruct Hno. by exists usr, w.
Qed.

(** X13: a request that does not come from the owner of an existing
    workspace, be it without a session, for an unknown id, for somebody
    else's workspace or for a released one, is answered 401 or 404 by the
    fetch, start, stop and delete routes alike, makes no Runtime call and
    leaves the table as it was. *)
Theorem only_owner_reaches_runtime d u i rt now :
  (¬ ∃ usr w, u = Some usr ∧ workspaces d !! i = Some w
              ∧ user_id w = Some (id usr)) →
  ∃ r, (http_status r = 401 ∨ http_status r = 404)
       ∧ get_workspace_handler d u i = r
       ∧ start_handler d u i rt now = (r, d, [])
       ∧ stop_handler d u i rt now = (r, d, [])
       ∧ delete_handler d u i rt = (r, d, []).
Proof.
  intros Hno. destruct (owned_workspace_inl d u i Hno) as (r & Hr & Hg & Hs).
  exists r. unfold start_handler, start_before, stop_handler, stop_before,
    delete_handler. by rewrite Hr.
Qed.

Lemma update_where_Forall (P : workspace → Prop) d i cond set :
  (∀ w, P w → P (set w)) →
  map_Forall (λ _ w, P w) (workspaces d) →
  map_Forall (λ _ w, P w) (workspaces (update_where d i cond set).1).
Proof.
  intros Hset Hd. unfold update_where.
  destruct (workspaces d !! i) as [w|] eqn:Hl; [|done].
  destruct (cond w); [|done]. cbn.
  apply map_Forall_insert_2; [|done]. apply Hset. by apply (Hd i).
Qed.

Lemma create_before_valid u b c :
  create_before u b = inr c →
  req_name c = body_name b ∧ valid_name (shown (body_name b)) = true.
Proof.
  unfold create_before. destruct u as [usr|]; [|done].
  destruct (falsy (body_name b) || falsy (body_repoUrl b)); [done|].
  destruct (valid_name (shown (body_name b))) eqn:Hv; [|done].
  by intros [= <-].
Qed.

Lemma run_operation_names_valid d op :
  name_stored_as_tested op → names_valid d → names_valid (run_operation d op).
Proof.
  intros Hop Hd.
  destruct op as [users u b rt now|u i rt now|u i rt now|u i rt]; cbn.
  - unfold create_handler.
    destruct (create_before u b) as [r|c] eqn:Hb; [done|].
    apply create_before_valid in Hb as [Hname Hv].
    unfold create_after, createWorkspace. destruct rt as [cid|]; [|done].
    destruct (bound (req_name c)) as [|n] eqn:Hn; [done|].
    destruct (bound (req_repoUrl c)) as [|r]; [done|].
    destruct (MAX_ROWID <? next_rowid d); [done|].
    destruct (name_taken _ _); [done|]. destruct (negb _); [done|]. cbn.
    apply map_Forall_insert_2; [|done]. cbn.
    rewrite Hname in Hn. by rewrite (Hop n Hn).
  - unfold start_handler. destruct (start_before d u i); [done|].
    unfold start_after. destruct rt; [|done]. cbn.
    by apply (update_where_Forall (λ w, valid_name (name w) = true)).
  - unfold stop_handler. destruct (stop_before d u i); [done|].
    unfold stop_after. destruct rt; [|done]. cbn.
    by apply (update_where_Forall (λ w, valid_name (name w) = true)).
  - unfold delete_handler. destruct (owned_workspace d u i); [done|].
    destruct rt; [|done]. cbn. unfold deleteWorkspace.
    destruct (workspaces d !! i); [|done]. cbn. by apply map_Forall_delete.
Qed.

Lemma forallb_Forall_true {A} (f : A → bool) (l : list A) :
  forallb f l = true → Forall (λ a, f a = true) l.
Proof.
  induction l as [|a l IH]; cbn; [by constructor|].
  intros [Ha Hl]%andb_true_iff. constructor; [done|by apply IH].
Qed.

Lemma run_names_valid ops d :
  Forall name_stored_as_tested ops → names_valid d → names_valid (run ops d).
Proof.
  intros Hops. revert d.
  induction Hops as [|op ops Hop _ IH]; intros d Hd; [done|].
  cbn. apply IH. by apply run_operation_names_valid.
Qed.

(** X14: the create route tests the name as a string.  A request whose
    name is falsy, or whose name as a string is empty or contains a
    character other than an ASCII letter, a digit, [_] or [-], is
    answered 400 (401 without a session) before any Runtime call and
    without touching the table; every name that reaches the Runtime
    passes that test.  After any sequence of requests on an initially
    empty registry in which every name is stored as it was tested, as
    every string is, each recorded name is non-empty and made of those
    characters only. *)
Theorem only_valid_names_are_created :
  (∀ users d u b rt now,
     falsy (body_name b) = true ∨ valid_name (shown (body_name b)) = false →
     ∃ r, create_handler users d u b rt now = (r, d, [])
          ∧ (http_status r = 400 ∨ http_status r = 401))
  ∧ (∀ users d u b rt now username n r env,
       createWorkspace_call username n r env
         ∈ (create_handler users d u b rt now).2 →
       n = body_name b ∧ valid_name (shown n) = true)
  ∧ (∀ s, stored_as_tested (Text s))
  ∧ (∀ ops i w,
       Forall name_stored_as_tested ops →
       workspaces (run ops initialize) !! i = Some w →
       name w ≠ ""
       ∧ Forall (λ a, name_char a = true)
           (String.list_ascii_of_string (name w))).
Proof.
  split_and!.
  - intros users d u b rt now Hbad. unfold create_handler, create_before.
    destruct u as [usr|]; [|eexists; split; [done|by right]].
    destruct Hbad as [Hf|Hv].
    + rewrite Hf. cbn. eexists; split; [done|by left].
    + destruct (falsy (body_name b) || falsy (body_repoUrl b));
        [eexists; split; [done|by left]|].
      rewrite Hv. cbn. eexists; split; [done|by left].
  - intros users d u b rt now username n r env. unfold create_handler.
    destruct (create_before u b) as [resp|c] eqn:Hb;
      [by intros ?%elem_of_nil|].
    apply create_before_valid in Hb as [Hname Hv].
    destruct (create_after users d c rt now). cbn.
    rewrite elem_of_cons, elem_of_nil. intros [Hc|[]].
    unfold create_call in Hc. injection Hc as _ -> _ _. by rewrite Hname.
  - by intros s n [= <-].
  - intros ops i w Hops Hl.
    assert (Hok : names_valid (run ops initialize)).
    { apply run_names_valid; [done|]. unfold names_valid, initialize. cbn.
      apply map_Forall_empty. }
    specialize (Hok i w Hl). cbn in Hok. unfold valid_name in Hok.
    apply andb_true_iff in Hok as [Hne Hall].
    apply negb_true_iff, bool_decide_eq_false in Hne.
    split; [done|]. by apply forallb_Forall_true.
Qed.


(** X16: the delete route, for the owner, removes the record whatever its
    status once the Runtime has removed the container: afterwards the id
    is unknown to the fetch and start routes, while every other record is
    untouched.  When the Runtime call fails the record stays and the
    caller receives 500. *)
Theorem delete_handler_removes d usr i w :
  workspaces d !! i = Some w → user_id w = Some (id usr) →
  delete_handler d (Some usr) i (Resolved ())
  = (Json 200 JsonSuccess, Db (delete i (workspaces d)) (sqlite_sequence d),
     [deleteWorkspace_call (container_id w)])
  ∧ (∀ u, get_workspace_handler
            (delete_handler d (Some usr) i (Resolved ())).1.2 (Some u) i
          = not_found)
  ∧ (∀ u rt now,
       start_handler (delete_handler d (Some usr) i (Resolved ())).1.2
         (Some u) i rt now
       = (not_found, (delete_handler d (Some usr) i (Resolved ())).1.2, []))
  ∧ (∀ j, j ≠ i →
       workspaces (delete_handler d (Some usr) i (Resolved ())).1.2 !! j
       = workspaces d !! j)
  ∧ (∀ message,
       delete_handler d (Some usr) i (Rejected message)
       = (Json 500 (JsonError message), d,
          [deleteWorkspace_call (container_id w)])).
Proof.
  intros Hl Ho.
  assert (Hdel : delete_handler d (Some usr) i (Resolved ())
    = (Json 200 JsonSuccess, Db (delete i (workspaces d)) (sqlite_sequence d),
       [deleteWorkspace_call (container_id w)])).
  { unfold delete_handler. rewrite (owned_workspace_owner d usr i w) by done.
    unfold deleteWorkspace. by rewrite Hl. }
  rewrite Hdel. cbn [fst snd]. split_and!; [done|..].
  - intros u. unfold get_workspace_handler, getWorkspace. cbn.
    by rewrite lookup_delete_eq.
  - intros u rt now. unfold start_handler, start_before, owned_workspace,
      getWorkspace. cbn. by rewrite lookup_delete_eq.
  - intros j Hj. cbn. by rewrite lookup_delete_ne.
  - intros message. unfold delete_handler.
    by rewrite (owned_workspace_owner d usr i w).
Qed.

End MoreHandlers.

(** ** More on the OAuth round trip *)

Section OAuthRoundTrip.
Import AuthCommon GitHubStrategy.
Implicit Types (s : session) (a : authenticated) (o : options).
Variable logIn : session → user → string + session.

Lemma authenticate_LogIn o s a save_err u :
  LogIn u ∈ (authenticate o logIn s a save_err).2 → a = AuthSuccess u.
Proof.
  unfold authenticate. destruct a as [m|info|u']; cbn.
  - rewrite elem_of_cons, elem_of_nil. by intros [?|?].
  - rewrite elem_of_cons, elem_of_nil. by intros [?|?].
  - destruct (logIn s u'); cbn; rewrite !elem_of_cons, elem_of_nil;
      intros H; repeat destruct H as [H|H]; try done; congruence.
Qed.

Lemma callback_authenticate_LogIn s a u :
  LogIn u ∈ (Server.callback_authenticate logIn s a).2 → a = AuthSuccess u.
Proof.
  unfold Server.callback_authenticate. destruct a as [m|info|u']; cbn.
  - rewrite elem_of_cons, elem_of_nil. by intros [?|?].
  - rewrite elem_of_cons, elem_of_nil. by intros [?|?].
  - destruct (logIn s u'); cbn; rewrite !elem_of_cons, elem_of_nil;
      intros H; repeat destruct H as [H|H]; try done; congruence.
Qed.

(** X17: on both callback routes [req.logIn] is called only for a request
    whose [state] equals the nonce stored in the session (a non-empty one,
    through the shared handler) and for which the provider round trip
    produced a user, and it is called with that user; a request that does
    not lead to [req.logIn] leaves the user attached to the session as it
    was. *)
Theorem login_requires_verified_state o (query_state : option string) s a
    (save_err : option string) :
  (∀ u, LogIn u ∈ (handleCallback o logIn query_state s a save_err).2 →
        query_state = oauthState s ∧ truthy (oauthState s) = true
        ∧ a = AuthSuccess u)
  ∧ (∀ u, LogIn u ∈ (Server.auth_github_callback logIn query_state s a).2 →
          query_state = oauthState s ∧ a = AuthSuccess u)
  ∧ ((∀ u, LogIn u ∉ (handleCallback o logIn query_state s a save_err).2) →
     passport_user (handleCallback o logIn query_state s a save_err).1.2
     = passport_user s)
  ∧ ((∀ u, LogIn u ∉ (Server.auth_github_callback logIn query_state s a).2) →
     passport_user (Server.auth_github_callback logIn query_state s a).1.2
     = passport_user s).
Proof.
  split_and!.
  - intros u. unfold handleCallback, verify_state.
    destruct (truthy (oauthState s)); cbn; [|by intros ?%elem_of_nil].
    case_bool_decide; cbn; [|by intros ?%elem_of_nil].
    intros Hin. by apply authenticate_LogIn in Hin.
  - intros u. unfold Server.auth_github_callback, Server.callback_verify_state.
    case_bool_decide; cbn; [|by intros ?%elem_of_nil].
    intros Hin. by apply callback_authenticate_LogIn in Hin.
  - unfold handleCallback, verify_state.
    destruct (truthy (oauthState s)); cbn; [|done].
    case_bool_decide; cbn; [|done].
    unfold authenticate. destruct a as [m|info|u]; [done..|].
    intros Hno. destruct (Hno u).
    destruct (logIn _ u); cbn; rewrite !elem_of_cons; tauto.
  - unfold Server.auth_github_callback, Server.callback_verify_state.
    case_bool_decide; cbn; [|done].
    unfold Server.callback_authenticate. destruct a as [m|info|u]; [done..|].
    intros Hno. destruct (Hno u).
    destruct (logIn _ u); cbn; rewrite !elem_of_cons; tauto.
Qed.

(** X18: a nonce is accepted once.  After [initiateAuth] has stored a
    (non-empty) nonce, the callback that carries it passes the state check
    of the shared handler, which hands the session on without the nonce;
    on that session every further callback, with the same state or any
    other, is rejected with 403.  On the workspaces server's route the
    same holds for every further callback that carries a state. *)
Theorem nonce_accepted_once state (query_returnTo : option string) s :
  state ≠ "" →
  (∃ s2, verify_state (Some state)
           (initiateAuth state query_returnTo s None).1.2 = (None, s2)
         ∧ oauthState s2 = None
         ∧ ∀ q, ∃ text, verify_state q s2 = (Some (Send 403 text), s2))
  ∧ (∃ s2, Server.callback_verify_state (Some state)
             (Server.auth_github state s).1.2 = (None, s2)
           ∧ oauthState s2 = None
           ∧ ∀ q, ∃ text,
               Server.callback_verify_state (Some q) s2
               = (Some (Send 403 text), s2)).
Proof.
  intros Hne. split.
  - eexists. unfold initiateAuth, verify_state. cbn.
    rewrite (bool_decide_eq_false_2 (state = "")) by done. cbn.
    rewrite bool_decide_eq_true_2 by done. cbn.
    split_and!; [done|done|]. intros q. by eexists.
  - eexists. unfold Server.auth_github, Server.callback_verify_state. cbn.
    rewrite bool_decide_eq_true_2 by done. cbn.
    split_and!; [done|done|]. intros q. by eexists.
Qed.

(** X19: only the latest nonce counts.  When the flow is initiated twice
    on one session, the second nonce replaces the first: a callback that
    carries the first nonce is rejected with 403 and leaves the second
    one in place, and the callback that carries the second one passes. *)
Theorem latest_nonce_wins n1 n2 (rt1 rt2 : option string) s :
  n1 ≠ n2 → n2 ≠ "" →
  (∃ text,
     verify_state (Some n1)
       (initiateAuth n2 rt2 (initiateAuth n1 rt1 s None).1.2 None).1.2
     = (Some (Send 403 text),
        (initiateAuth n2 rt2 (initiateAuth n1 rt1 s None).1.2 None).1.2))
  ∧ oauthState (initiateAuth n2 rt2 (initiateAuth n1 rt1 s None).1.2 None).1.2
    = Some n2
  ∧ (verify_state (Some n2)
       (initiateAuth n2 rt2 (initiateAuth n1 rt1 s None).1.2 None).1.2).1
    = None
  ∧ (Server.callback_verify_state (Some n1)
       (Server.auth_github n2 (Server.auth_github n1 s).1.2).1.2).1
    = Some (Send 403 "Invalid state parameter. Please try logging in again.")
  ∧ (Server.callback_verify_state (Some n2)
       (Server.auth_github n2 (Server.auth_github n1 s).1.2).1.2).1
    = None.
Proof.
  intros H12 Hne. unfold initiateAuth, verify_state, Server.auth_github,
    Server.callback_verify_state. cbn.
  rewrite (bool_decide_eq_false_2 (n2 = "")) by done. cbn.
  rewrite (bool_decide_eq_false_2 (Some n1 = Some n2)) by congruence.
  rewrite (bool_decide_eq_true_2 (Some n2 = Some n2)) by done. cbn.
  split_and!; try done. by eexists.
Qed.

(** X20: the return target given to [initiateAuth] is where a successful
    login ends.  The target is read from the session before [req.logIn]
    runs, so it survives whatever [req.logIn] does to the session; it is
    used as given.  Without a target in the request or in the session the
    login ends at [defaultReturnTo], or at [/dashboard] when that is not
    set either. *)
Theorem returnTo_round_trip o state (target : string) s u
    (save_err : option string) :
  state ≠ "" → target ≠ "" →
  (∀ s', logIn {| oauthState := None; returnTo := Some target;
                  passport_user := passport_user s |} u = inr s' →
         handleCallback o logIn (Some state)
           (initiateAuth state (Some target) s None).1.2 (AuthSuccess u)
           save_err
         = (Redirect (Path target), s',
            [PassportAuthenticate; LogIn u; SessionSave s']))
  ∧ (returnTo s = None →
     ∀ s', logIn {| oauthState := None; returnTo := None;
                    passport_user := passport_user s |} u = inr s' →
           handleCallback o logIn (Some state)
             (initiateAuth state None s None).1.2 (AuthSuccess u) save_err
           = (Redirect (Path (or_else (defaultReturnTo o) "/dashboard")), s',
              [PassportAuthenticate; LogIn u; SessionSave s'])).
Proof.
  intros Hstate Htarget. split.
  - intros s' Hlog.
    unfold handleCallback, initiateAuth, verify_state, authenticate. cbn.
    rewrite (bool_decide_eq_false_2 (target = "")) by done. cbn.
    rewrite (bool_decide_eq_false_2 (state = "")) by done. cbn.
    rewrite bool_decide_eq_true_2 by done. cbn.
    rewrite Hlog. by rewrite (bool_decide_eq_false_2 (target = "")).
  - intros Hrt s' Hlog.
    unfold handleCallback, initiateAuth, verify_state, authenticate. cbn.
    rewrite (bool_decide_eq_false_2 (state = "")) by done. cbn.
    rewrite bool_decide_eq_true_2 by done. cbn.
    rewrite Hrt, Hlog. cbn. unfold successRedirect.
    destruct (defaultReturnTo o) as [r|]; cbn; [|reflexivity].
    destruct (decide (r = "")) as [->|Hr]; [reflexivity|].
    by rewrite !(bool_decide_eq_false_2 (r = "")).
Qed.

End OAuthRoundTrip.

Section OrganizationGate.
Import AuthCommon GitHubStrategy.

(** X21: the organization gate of the strategy's verify function.  With a
    target organization configured, a user is handed to passport only
    when the membership list fetched from the provider contains that
    organization and the application's hook returned the user; for a
    non-member the result is a failure that names user and organization,
    and the hook is not called; a failed membership request is an
    authentication error.  With no organization configured the
    membership list is not fetched at all. *)
Theorem organization_gate (org : option string) (token username : string)
    (orgs : settled (list string)) (hook : settled (option user)) :
  (truthy org = true →
     (∀ u, (verify org token username orgs hook).1 = AuthSuccess u →
           ∃ logins, orgs = Resolved logins ∧ default "" org ∈ logins
                     ∧ hook = Resolved (Some u))
     ∧ (∀ logins, orgs = Resolved logins → default "" org ∉ logins →
          verify org token username orgs hook
          = (AuthFail (Some (not_a_member username (default "" org))),
             [FetchUserOrgs token]))
     ∧ (∀ message, orgs = Rejected message →
          verify org token username orgs hook
          = (AuthError message, [FetchUserOrgs token])))
  ∧ (truthy org = false →
     (FetchUserOrgs token ∉ (verify org token username orgs hook).2)
     ∧ (∀ u, (verify org token username orgs hook).1 = AuthSuccess u
             ↔ hook = Resolved (Some u))).
Proof.
  split.
  - intros Ht. unfold verify. rewrite Ht. split_and!.
    + intros u. destruct orgs as [logins|m]; [|done].
      case_bool_decide as Hin; [|done].
      destruct hook as [[u'|]|m]; cbn; [|done..].
      intros [= ->]. by exists logins.
    + intros logins -> Hnot. by rewrite bool_decide_eq_false_2.
    + by intros message ->.
  - intros Ht. unfold verify. rewrite Ht. split.
    + destruct hook as [[u'|]|m]; cbn;
        rewrite elem_of_cons, elem_of_nil; by intros [?|?].
    + intros u. destruct hook as [[u'|]|m]; cbn; split; intros H;
        try done; congruence.
Qed.

(** X22: a user who is not a member of the configured organization is not
    logged in.  When the verify function has refused a non-member, the
    shared callback handler, even for a request with the right state,
    redirects to the failure page with the message that names user and
    organization, and [req.logIn] is not called. *)
Theorem non_member_not_logged_in (logIn : session → user → string + session)
    o (org : option string) (token username state : string)
    (logins : list string) (hook : settled (option user)) s
    (save_err : option string) :
  truthy org = true → default "" org ∉ logins →
  oauthState s = Some state → state ≠ "" →
  handleCallback o logIn (Some state) s
    (verify org token username (Resolved logins) hook).1 save_err
  = (Redirect (FailureWithError (not_a_member username (default "" org))),
     {| oauthState := None; returnTo := returnTo s;
        passport_user := passport_user s |},
     [PassportAuthenticate]).
Proof.
  intros Ht Hnot Hs Hne.
  unfold verify. rewrite Ht, bool_decide_eq_false_2 by done. cbn.
  unfold handleCallback, verify_state. rewrite Hs. cbn.
  rewrite (bool_decide_eq_false_2 (state = "")) by done. cbn.
  rewrite bool_decide_eq_true_2 by done. cbn.
  done.
Qed.

End OrganizationGate.

(** ** The further properties at concrete inputs *)

Section MoreExamples.
Import Server Lifecycle Scenarios Queries Listing MoreScenarios.

Lemma two_rows_lookup :
  workspaces two_rows !! 1 = Some row_a ∧ workspaces two_rows !! 2 = Some row_b.
Proof. split; by vm_compute. Qed.

Lemma two_rows_names_unique : names_unique two_rows.
Proof. apply execute_all_names_unique, names_unique_initialize. Qed.


Lemma updateWorkspaceContainer_compare_and_swap_witness :
  workspaces (registry5 "starting" (Some "1001")) !! 5
    = Some (ws5 "starting" (Some "1001"))
  ∧ ((updateWorkspaceContainer (registry5 "starting" (Some "1001")) 5
        (Some "c9") "running" (Some "starting") 20).2 = 1%nat
     ↔ status (ws5 "starting" (Some "1001")) = Some "starting").
Proof.
  split; [reflexivity|].
  exact (proj1
    (updateWorkspaceContainer_compare_and_swap
       (registry5 "starting" (Some "1001")) 5 (ws5 "starting" (Some "1001"))
       (Some "c9") "running" 20 eq_refl) "starting").
Defined.

Lemma names_stay_unique_witness :
  names_unique two_rows
  ∧ names_unique
      (execute_all [DeleteWorkspace 1; CreateWorkspace registered new_a 12]
         two_rows).
Proof.
  split; [exact two_rows_names_unique|].
  exact (proj2
    (names_stay_unique [DeleteWorkspace 1; CreateWorkspace registered new_a 12])
    two_rows two_rows_names_unique).
Defined.

Lemma statements_keep_row_identity_witness :
  workspaces two_rows !! 2 = Some row_b
  ∧ AcquireWorkspace registered 2 "1002" "stopped" 20 ≠ DeleteWorkspace 2
  ∧ ∃ w', workspaces
            (execute two_rows (AcquireWorkspace registered 2 "1002" "stopped" 20))
            !! 2 = Some w'
          ∧ name w' = name row_b ∧ repo_url w' = repo_url row_b
          ∧ created_at w' = created_at row_b.
Proof.
  assert (Hl : workspaces two_rows !! 2 = Some row_b) by reflexivity.
  assert (Hst : AcquireWorkspace registered 2 "1002" "stopped" 20
                ≠ DeleteWorkspace 2) by discriminate.
  split; [exact Hl|]. split; [exact Hst|].
  exact (proj1
    (statements_keep_row_identity two_rows
       (AcquireWorkspace registered 2 "1002" "stopped" 20) 2) row_b Hl Hst).
Defined.

Lemma rowid_never_reused_witness :
  createWorkspace registered initialize new_a 10
    = inr (1, execute initialize (CreateWorkspace registered new_a 10))
  ∧ createWorkspace registered
      (execute_all [DeleteWorkspace 1]
         (execute initialize (CreateWorkspace registered new_a 10))) new_a 12
    = inr (2, Db {[ 2 := Workspace (Some "1001") "proj-a" "https://git/x"
                           (Some "c1") (Some "running") None 12 12 ]} 2)
  ∧ 1 < 2.
Proof.
  assert (H1 : createWorkspace registered initialize new_a 10
               = inr (1, execute initialize
                           (CreateWorkspace registered new_a 10)))
    by reflexivity.
  assert (H2 : createWorkspace registered
                 (execute_all [DeleteWorkspace 1]
                    (execute initialize (CreateWorkspace registered new_a 10)))
                 new_a 12
               = inr (2, Db {[ 2 := Workspace (Some "1001") "proj-a"
                                      "https://git/x" (Some "c1")
                                      (Some "running") None 12 12 ]} 2))
    by reflexivity.
  split; [exact H1|]. split; [exact H2|].
  exact (rowid_never_reused _ _ _ _ _ _ _ _ _ _ _ _ H1 H2).
Defined.

Lemma delete_frees_name_witness :
  names_unique two_rows
  ∧ workspaces two_rows !! 1 = Some row_a
  ∧ new_name new_a = name row_a
  ∧ next_rowid two_rows ≤ MAX_ROWID
  ∧ (∀ v, userId new_a = Some v → is_Some (registered !! v))
  ∧ createWorkspace registered two_rows new_a 12 = inl SQLITE_CONSTRAINT_UNIQUE
  ∧ ∃ j d', createWorkspace registered (deleteWorkspace two_rows 1).1 new_a 12
            = inr (j, d')
            ∧ workspaces (deleteWorkspace two_rows 1).1 !! j = None
            ∧ ∃ w', workspaces d' !! j = Some w' ∧ name w' = name row_a.
Proof.
  assert (Hroom : next_rowid two_rows ≤ MAX_ROWID) by (by vm_compute).
  assert (Hreg : ∀ v, userId new_a = Some v → is_Some (registered !! v)).
  { intros v [= <-]. by eexists. }
  split; [exact two_rows_names_unique|]. split; [reflexivity|].
  split; [reflexivity|]. split; [exact Hroom|]. split; [exact Hreg|].
  destruct (delete_frees_name registered two_rows 1 row_a new_a 12
              two_rows_names_unique eq_refl eq_refl Hroom Hreg)
    as (Hdup & _ & Hafter).
  exact (conj Hdup Hafter).
Defined.

Lemma acquire_then_release_witness :
  workspaces two_rows !! 2 = Some row_b
  ∧ user_id row_b = None ∧ status row_b = Some "stopped"
  ∧ is_Some (registered !! "1002")
  ∧ ∃ d1, acquireWorkspace registered two_rows 2 "1002" "stopped" 20
          = inr (d1, 1%nat)
          ∧ releaseWorkspace d1 2 "1002" "stopped" 21
            = (Db (<[2 := Workspace None "proj-b" "https://git/y" None
                            (Some "stopped") None 11 21]>
                     (workspaces two_rows))
                  (sqlite_sequence two_rows), 1%nat).
Proof.
  assert (Hreg : is_Some (registered !! "1002")) by (by eexists).
  split; [reflexivity|]. split; [reflexivity|]. split; [reflexivity|].
  split; [exact Hreg|].
  exact (acquire_then_release registered two_rows 2 row_b "1002" "stopped"
           20 21 eq_refl eq_refl eq_refl Hreg).
Defined.

Lemma pool_visibility_witness :
  workspaces two_rows !! 2 = Some row_b
  ∧ status row_b = Some "stopped"
  ∧ user_id row_b = None
  ∧ is_Some (registered !! "1002")
  ∧ ∃ d', acquireWorkspace registered two_rows 2 "1002" "stopped" 20
          = inr (d', 1%nat)
          ∧ (∃ w', (2, w') ∈ getUserWorkspaces d' "1002"
                   ∧ user_id w' = Some "1002" ∧ name w' = name row_b)
          ∧ ∀ v w', v ≠ "1002" → (2, w') ∉ getUserWorkspaces d' v.
Proof.
  assert (Hreg : is_Some (registered !! "1002")) by (by eexists).
  split; [reflexivity|]. split; [reflexivity|]. split; [reflexivity|].
  split; [exact Hreg|].
  exact (proj1 (proj2
    (pool_visibility registered two_rows 2 row_b "stopped" 20
       eq_refl eq_refl)) "1002" eq_refl Hreg).
Defined.

Lemma lookup_by_name_witness :
  names_unique two_rows
  ∧ getWorkspaceByNameOnly two_rows "proj-b" = Some (2, row_b).
Proof.
  split; [exact two_rows_names_unique|].
  exact (proj2
    (proj1 (lookup_by_name two_rows "proj-b" two_rows_names_unique) 2 row_b)
    (conj eq_refl eq_refl)).
Defined.

Lemma upsertUser_then_getUserById_witness :
  Users.upsertUser {[ "583231" := octocat_row 1 1 ]} octocat 5
    = inr {[ "583231" := octocat_row 1 5 ]}
  ∧ Users.getUserById {[ "583231" := octocat_row 1 5 ]} "583231"
    = Some (octocat_row 1 5).
Proof.
  assert (Hu : Users.upsertUser {[ "583231" := octocat_row 1 1 ]} octocat 5
               = inr {[ "583231" := octocat_row 1 5 ]}) by reflexivity.
  split; [exact Hu|].
  exact (proj1 (upsertUser_then_getUserById _ octocat 5 _ Hu)).
Defined.

Lemma usernames_stay_unique_witness :
  (∃ j r, ({[ "1" := octocat_row 1 1 ]} : gmap string Users.user_row) !! j
          = Some r ∧ j ≠ Users.id octocat
          ∧ Users.u_username r = Users.username octocat)
  ∧ Users.upsertUser {[ "1" := octocat_row 1 1 ]} octocat 5
    = inl SQLITE_CONSTRAINT_UNIQUE.
Proof.
  assert (Hdup : ∃ j r,
    ({[ "1" := octocat_row 1 1 ]} : gmap string Users.user_row) !! j = Some r
    ∧ j ≠ Users.id octocat ∧ Users.u_username r = Users.username octocat).
  { exists "1", (octocat_row 1 1).
    split; [reflexivity|]. split; [discriminate|reflexivity]. }
  split; [exact Hdup|].
  exact (proj2
    (proj1 (usernames_stay_unique {[ "1" := octocat_row 1 1 ]} octocat 5))
    Hdup).
Defined.

Lemma only_owner_reaches_runtime_witness :
  (¬ ∃ usr w, Some bob = Some usr
              ∧ workspaces (registry5 "stopped" (Some "1001")) !! 5 = Some w
              ∧ user_id w = Some (id usr))
  ∧ ∃ r, (http_status r = 401 ∨ http_status r = 404)
         ∧ get_workspace_handler (registry5 "stopped" (Some "1001"))
             (Some bob) 5 = r
         ∧ start_handler (registry5 "stopped" (Some "1001")) (Some bob) 5
             (Resolved ()) 20
           = (r, registry5 "stopped" (Some "1001"), [])
         ∧ stop_handler (registry5 "stopped" (Some "1001")) (Some bob) 5
             (Resolved ()) 20
           = (r, registry5 "stopped" (Some "1001"), [])
         ∧ delete_handler (registry5 "stopped" (Some "1001")) (Some bob) 5
             (Resolved ())
           = (r, registry5 "stopped" (Some "1001"), []).
Proof.
  assert (Hno : ¬ ∃ usr w, Some bob = Some usr
    ∧ workspaces (registry5 "stopped" (Some "1001")) !! 5 = Some w
    ∧ user_id w = Some (id usr)).
  { intros (usr & w & Hu & Hl & Ho). injection Hu as <-.
    vm_compute in Hl. injection Hl as <-. discriminate Ho. }
  split; [exact Hno|].
  exact (only_owner_reaches_runtime (registry5 "stopped" (Some "1001"))
           (Some bob) 5 (Resolved ()) 20 Hno).
Defined.

Lemma only_valid_names_are_created_witness :
  (falsy (Text "../etc") = true ∨ valid_name (shown (Text "../etc")) = false)
  ∧ (∃ r, create_handler registered initialize (Some alice)
            (CreateBody (Text "../etc") (Text "r") None) (Resolved "c1") 10
          = (r, initialize, [])
          ∧ (http_status r = 400 ∨ http_status r = 401))
  ∧ Forall name_stored_as_tested
      [create_proj_a; Stop (Some alice) 1 (Resolved ()) 20]
  ∧ workspaces
      (run [create_proj_a; Stop (Some alice) 1 (Resolved ()) 20] initialize)
      !! 1
    = Some (Workspace (Some "1001") "proj-a" "https://git/x" (Some "c1")
              (Some "stopped") None 10 20)
  ∧ "proj-a" ≠ "".
Proof.
  assert (Hbad : falsy (Text "../etc") = true
                 ∨ valid_name (shown (Text "../etc")) = false)
    by (right; reflexivity).
  assert (Hops : Forall name_stored_as_tested
                   [create_proj_a; Stop (Some alice) 1 (Resolved ()) 20]).
  { repeat constructor. by intros n [= <-]. }
  split; [exact Hbad|]. split.
  - exact (proj1 only_valid_names_are_created registered initialize
             (Some alice) (CreateBody (Text "../etc") (Text "r") None)
             (Resolved "c1") 10 Hbad).
  - split; [exact Hops|]. split; [reflexivity|].
    exact (proj1 (proj2 (proj2 (proj2 only_valid_names_are_created))
             [create_proj_a; Stop (Some alice) 1 (Resolved ()) 20] 1
             (Workspace (Some "1001") "proj-a" "https://git/x" (Some "c1")
                (Some "stopped") None 10 20) Hops eq_refl)).
Defined.


Lemma delete_handler_removes_witness :
  workspaces (registry5 "running" (Some "1001")) !! 5
    = Some (ws5 "running" (Some "1001"))
  ∧ user_id (ws5 "running" (Some "1001")) = Some (id alice)
  ∧ delete_handler (registry5 "running" (Some "1001")) (Some alice) 5
      (Resolved ())
    = (Json 200 JsonSuccess,
       Db (delete 5 (workspaces (registry5 "running" (Some "1001")))) 5,
       [deleteWorkspace_call (Some "c5")]).
Proof.
  split; [reflexivity|]. split; [reflexivity|].
  exact (proj1
    (delete_handler_removes (registry5 "running" (Some "1001")) alice 5
       (ws5 "running" (Some "1001")) eq_refl eq_refl)).
Defined.

Lemma login_requires_verified_state_witness :
  LogIn bob
    ∈ (AuthCommon.handleCallback docs_options regenerate (Some "legit-value")
         pending (AuthSuccess bob) None).2
  ∧ Some "legit-value" = oauthState pending.
Proof.
  assert (Hin : LogIn bob
    ∈ (AuthCommon.handleCallback docs_options regenerate (Some "legit-value")
         pending (AuthSuccess bob) None).2).
  { vm_compute. apply list_elem_of_further, list_elem_of_here. }
  split; [exact Hin|].
  exact (proj1
    (proj1 (login_requires_verified_state regenerate docs_options
              (Some "legit-value") pending (AuthSuccess bob) None) bob Hin)).
Defined.

Lemma nonce_accepted_once_witness :
  "ab12" ≠ ""
  ∧ ∃ s2, AuthCommon.verify_state (Some "ab12")
            (AuthCommon.initiateAuth "ab12" None (Session None None None)
               None).1.2 = (None, s2)
          ∧ oauthState s2 = None
          ∧ ∀ q, ∃ text,
              AuthCommon.verify_state q s2 = (Some (Send 403 text), s2).
Proof.
  assert (Hne : "ab12" ≠ "") by discriminate.
  split; [exact Hne|].
  exact (proj1 (nonce_accepted_once "ab12" None (Session None None None) Hne)).
Defined.

Lemma latest_nonce_wins_witness :
  "ab12" ≠ "cd34" ∧ "cd34" ≠ ""
  ∧ oauthState
      (AuthCommon.initiateAuth "cd34" None
         (AuthCommon.initiateAuth "ab12" None (Session None None None)
            None).1.2 None).1.2
    = Some "cd34".
Proof.
  assert (H1 : "ab12" ≠ "cd34") by discriminate.
  assert (H2 : "cd34" ≠ "") by discriminate.
  split; [exact H1|]. split; [exact H2|].
  exact (proj1 (proj2
    (latest_nonce_wins "ab12" "cd34" None None (Session None None None)
       H1 H2))).
Defined.

Lemma returnTo_round_trip_witness :
  "ab12" ≠ "" ∧ "/docs/intro" ≠ ""
  ∧ regenerate {| oauthState := None; returnTo := Some "/docs/intro";
                  passport_user := None |} bob
    = inr (Session None None (Some bob))
  ∧ AuthCommon.handleCallback docs_options regenerate (Some "ab12")
      (AuthCommon.initiateAuth "ab12" (Some "/docs/intro")
         (Session None None None) None).1.2 (AuthSuccess bob) None
    = (Redirect (Path "/docs/intro"), Session None None (Some bob),
       [PassportAuthenticate; LogIn bob;
        SessionSave (Session None None (Some bob))]).
Proof.
  assert (H1 : "ab12" ≠ "") by discriminate.
  assert (H2 : "/docs/intro" ≠ "") by discriminate.
  split; [exact H1|]. split; [exact H2|]. split; [reflexivity|].
  exact (proj1
    (returnTo_round_trip regenerate docs_options "ab12" "/docs/intro"
       (Session None None None) bob None H1 H2)
    (Session None None (Some bob)) eq_refl).
Defined.

Lemma organization_gate_witness :
  truthy (Some "ops-frontier") = true
  ∧ ("ops-frontier" ∉ ["github"; "octo-org"])
  ∧ GitHubStrategy.verify (Some "ops-frontier") "gho_token" "octocat"
      (Resolved ["github"; "octo-org"]) (Resolved (Some bob))
    = (AuthFail (Some (GitHubStrategy.not_a_member "octocat" "ops-frontier")),
       [GitHubStrategy.FetchUserOrgs "gho_token"]).
Proof.
  assert (Hno : "ops-frontier" ∉ ["github"; "octo-org"]).
  { rewrite !elem_of_cons, elem_of_nil. intros [H|[H|H]]; [discriminate..|done]. }
  split; [reflexivity|]. split; [exact Hno|].
  exact (proj1 (proj2
    (proj1 (organization_gate (Some "ops-frontier") "gho_token" "octocat"
              (Resolved ["github"; "octo-org"]) (Resolved (Some bob)))
       eq_refl)) ["github"; "octo-org"] eq_refl Hno).
Defined.

Lemma non_member_not_logged_in_witness :
  truthy (Some "ops-frontier") = true
  ∧ (default "" (Some "ops-frontier") ∉ ["github"])
  ∧ oauthState pending = Some "legit-value"
  ∧ "legit-value" ≠ ""
  ∧ AuthCommon.handleCallback docs_options regenerate (Some "legit-value")
      pending
      (GitHubStrategy.verify (Some "ops-frontier") "gho_token" "octocat"
         (Resolved ["github"]) (Resolved (Some bob))).1 None
    = (Redirect (FailureWithError
                   (GitHubStrategy.not_a_member "octocat"
                      (default "" (Some "ops-frontier")))),
       {| oauthState := None; returnTo := returnTo pending;
          passport_user := passport_user pending |},
       [PassportAuthenticate]).
Proof.
  assert (Hno : default "" (Some "ops-frontier") ∉ ["github"]).
  { rewrite !elem_of_cons, elem_of_nil. intros [H|H]; [discriminate|done]. }
  assert (Hne : "legit-value" ≠ "") by discriminate.
  split; [reflexivity|]. split; [exact Hno|]. split; [reflexivity|].
  split; [exact Hne|].
  exact (non_member_not_logged_in regenerate docs_options
           (Some "ops-frontier") "gho_token" "octocat" "legit-value"
           ["github"] (Resolved (Some bob)) pending None eq_refl Hno
           eq_refl Hne).
Defined.

End MoreExamples.
